(** * codeintel-api-schema-validator: a shallow embedding of [main.py]

    The program loads a data file and a schema file (JSON or YAML), runs a
    JSON-Schema engine on the two documents and maps the outcome to a
    message on stdout and a process exit status.

    Modelling choices.
    - Python strings are [string]s (ASCII; [str.lower] acts on A-Z only,
      which is all that matters for the literals json / yaml / yml).
    - Exceptions are values [exn] with a class and the text of [str(e)];
      the class hierarchy is the method-resolution order [mro], and an
      [except C] clause is the test [isinstance e C].
    - Effects (opening and closing a file, logging calls, printing,
      changing the logger's level) are recorded in a trace of [event]s; a
      computation is a trace together with either a raised exception or a
      value.
    - The file system is an explicit record; [json.load], [yaml.safe_load]
      and [jsonschema.validate] are external libraries and are Variables of
      the section that contains the program. *)

From Stdlib Require Import String Ascii List ZArith Bool Lia DecimalString.
Import ListNotations.
Local Open Scope string_scope.
Local Open Scope list_scope.

(** ** Python string helpers *)

Module PyStr.

(** [s.split(c)] for a one-character separator: never empty. *)
Fixpoint split (c : ascii) (s : string) : list string :=
  match s with
  | EmptyString => [EmptyString]
  | String a s' =>
      if Ascii.eqb a c then EmptyString :: split c s'
      else match split c s' with
           | [] => [String a EmptyString]
           | h :: t => String a h :: t
           end
  end.

(** [l[-1]] on a non-empty list. *)
Definition last_item (l : list string) : string := List.last l EmptyString.

Definition lower_ascii (a : ascii) : ascii :=
  let n := nat_of_ascii a in
  if (Nat.leb 65 n && Nat.leb n 90)%bool then ascii_of_nat (n + 32) else a.

Definition is_ascii (a : ascii) : bool := Nat.ltb (nat_of_ascii a) 128.

(** [s.lower()] on ASCII text.  The letters A to Z are mapped to a to z
    and every other byte is kept, so on text outside ASCII (which Python
    lower-cases by code point) this is not Python's [lower]. *)
Fixpoint lower (s : string) : string :=
  match s with
  | EmptyString => EmptyString
  | String a s' => String (lower_ascii a) (lower s')
  end.

(** [c in s] *)
Fixpoint contains_char (c : ascii) (s : string) : bool :=
  match s with
  | EmptyString => false
  | String a s' => Ascii.eqb a c || contains_char c s'
  end.

(** [s.startswith(p)] *)
Definition startswith (s p : string) : bool := String.prefix p s.


(** [s.split(c, 1)]: the text before the first [c], and the text after it
    when there is one. *)
Fixpoint split_once (c : ascii) (s : string) : string * option string :=
  match s with
  | EmptyString => (EmptyString, None)
  | String a s' =>
      if Ascii.eqb a c then (EmptyString, Some s')
      else let '(h, t) := split_once c s' in (String a h, t)
  end.

Definition is_digit (a : ascii) : bool :=
  let n := nat_of_ascii a in (Nat.leb 48 n && Nat.leb n 57)%bool.

Fixpoint all_chars (p : ascii -> bool) (s : string) : bool :=
  match s with
  | EmptyString => true
  | String a s' => p a && all_chars p s'
  end.

(** [os.path.basename] on a POSIX path: the text after the last slash. *)
Definition basename (p : string) : string := last_item (split "/"%char p).

End PyStr.

(** ** Exceptions *)

Inductive exn_class : Type :=
| Exception
| OSError
| FileNotFoundError
| PermissionError
| IsADirectoryError
| ValueError
| JSONDecodeError
| UnicodeError
| UnicodeDecodeError
| RuntimeError
| RecursionError
| TypeError
| YAMLError
| MarkedYAMLError
| ScannerError
| ParserError
| ValidationError
| SchemaError.

Definition exn_class_eq_dec (a b : exn_class) : {a = b} + {a <> b}.
Proof. decide equality. Defined.

Definition class_eqb (a b : exn_class) : bool :=
  if exn_class_eq_dec a b then true else false.

(** The class itself followed by its bases, as Python's [__mro__] lists
    them (up to [Exception]).  [json.JSONDecodeError] derives from
    [ValueError]; the two jsonschema errors and [yaml.YAMLError] derive
    from [Exception] directly. *)
Definition mro (c : exn_class) : list exn_class :=
  match c with
  | Exception => [Exception]
  | OSError => [OSError; Exception]
  | FileNotFoundError => [FileNotFoundError; OSError; Exception]
  | PermissionError => [PermissionError; OSError; Exception]
  | IsADirectoryError => [IsADirectoryError; OSError; Exception]
  | ValueError => [ValueError; Exception]
  | JSONDecodeError => [JSONDecodeError; ValueError; Exception]
  | UnicodeError => [UnicodeError; ValueError; Exception]
  | UnicodeDecodeError => [UnicodeDecodeError; UnicodeError; ValueError; Exception]
  | RuntimeError => [RuntimeError; Exception]
  | RecursionError => [RecursionError; RuntimeError; Exception]
  | TypeError => [TypeError; Exception]
  | YAMLError => [YAMLError; Exception]
  | MarkedYAMLError => [MarkedYAMLError; YAMLError; Exception]
  | ScannerError => [ScannerError; MarkedYAMLError; YAMLError; Exception]
  | ParserError => [ParserError; MarkedYAMLError; YAMLError; Exception]
  | ValidationError => [ValidationError; Exception]
  | SchemaError => [SchemaError; Exception]
  end.

Definition issubclass (c d : exn_class) : bool := existsb (class_eqb d) (mro c).

(** An exception object: its class and [str(e)]. *)
Record exn : Type := mkExn { exn_cls : exn_class; exn_str : string }.

Definition isinstance (e : exn) (c : exn_class) : bool := issubclass (exn_cls e) c.

(** ** Documents *)

(** What [json.load] and [yaml.safe_load] return: a dynamically typed tree.
    A float is kept as its binary64 bit pattern. *)
#[warnings="-register-all"]
Inductive Document : Type :=
| DNull
| DBool (b : bool)
| DInt (n : Z)
| DFloat (bits : Z)
| DStr (s : string)
| DSeq (items : list Document)
| DMap (fields : list (string * Document)).

(** ** Logging levels *)

Inductive level : Type := DEBUG | INFO | WARNING | ERROR | CRITICAL.

Definition levelno (l : level) : Z :=
  match l with
  | DEBUG => 10 | INFO => 20 | WARNING => 30 | ERROR => 40 | CRITICAL => 50
  end.

Definition level_of_name (s : string) : option level :=
  if s =? "DEBUG" then Some DEBUG
  else if s =? "INFO" then Some INFO
  else if s =? "WARNING" then Some WARNING
  else if s =? "ERROR" then Some ERROR
  else if s =? "CRITICAL" then Some CRITICAL
  else None.

(** ** Effects *)

Inductive event : Type :=
| EvOpen (path : string) (opened : bool)   (* [open(path, 'r')] was called *)
| EvClose (path : string)                  (* the [with] block released the file *)
| EvLog (lvl : level) (msg : string)       (* [logging.<lvl>(msg)] was called *)
| EvSetLevel (lvl : level)                 (* [logging.getLogger().setLevel] *)
| EvPrint (line : string)                  (* [print(line)] *)
| EvArgparse (text : string)               (* argparse writing help or a usage error *)
| EvTraceback (text : string).             (* the interpreter reporting an uncaught exception *)

Definition trace : Type := list event.

(** A computation: the effects performed, then a raised exception or a value. *)
Definition M (A : Type) : Type := (trace * (exn + A))%type.

Definition ret {A} (a : A) : M A := ([], inr a).
Definition raise {A} (e : exn) : M A := ([], inl e).
Definition emit (ev : event) : M unit := ([ev], inr tt).

Definition bind {A B} (m : M A) (k : A -> M B) : M B :=
  match m with
  | (t, inl e) => (t, inl e)
  | (t, inr a) => let '(t', r) := k a in (t ++ t', r)
  end.

(** [try: m  except Exception as e: h e] *)
Definition try_except {A} (m : M A) (h : exn -> M A) : M A :=
  match m with
  | (t, inl e) => let '(t', r) := h e in (t ++ t', r)
  | (t, inr a) => (t, inr a)
  end.

(** [try: m  finally: cleanup] *)
Definition finally {A} (m : M A) (cleanup : trace) : M A :=
  let '(t, r) := m in (t ++ cleanup, r).

Definition lift {A} (r : exn + A) : M A := ([], r).

Notation "x <- m ;; k" := (bind m (fun x => k))
  (at level 61, m at next level, right associativity).
Notation "m ;;; k" := (bind m (fun _ => k))
  (at level 61, right associativity).

Definition logging_error (msg : string) : M unit := emit (EvLog ERROR msg).
Definition logging_info (msg : string) : M unit := emit (EvLog INFO msg).
Definition print (line : string) : M unit := emit (EvPrint line).

(** The records that reach the log stream: a call is emitted when its level
    is at least the root logger's level at that moment.  The level starts at
    INFO ([logging.basicConfig(level=logging.INFO)]). *)
Fixpoint log_output_from (current : level) (t : trace) : list (level * string) :=
  match t with
  | [] => []
  | EvSetLevel l :: t' => log_output_from l t'
  | EvLog l m :: t' =>
      if (levelno current <=? levelno l)%Z then (l, m) :: log_output_from current t'
      else log_output_from current t'
  | _ :: t' => log_output_from current t'
  end.

Definition log_output (t : trace) : list (level * string) := log_output_from INFO t.

(** The logging calls made, whatever the logger's level. *)
Definition log_calls (t : trace) : list (level * string) :=
  flat_map (fun ev => match ev with EvLog l m => [(l, m)] | _ => [] end) t.

(** What [print] wrote: one entry for each call, in order.  An entry is
    the text of one call and may span several lines. *)
Definition stdout (t : trace) : list string :=
  flat_map (fun ev => match ev with EvPrint s => [s] | _ => [] end) t.

(** The [open] calls made. *)
Definition opens (t : trace) : list (string * bool) :=
  flat_map (fun ev => match ev with EvOpen p b => [(p, b)] | _ => [] end) t.

(** ** The file system *)

(** What reading an opened text file gives: its text, or the exception the
    read raises. *)
Definition file : Type := (exn + string)%type.

Record FileSystem : Type := mkFS {
  path_exists : string -> bool;          (* [os.path.exists] *)
  fs_open : string -> exn + file         (* [open(path, 'r')] *)
}.

(** ** The argument parser

    [setup_argparse] builds an [argparse.ArgumentParser] with two
    positionals and three valued options; argparse adds [-h/--help].
    [parse_args] below is [setup_argparse().parse_args()] as CPython 3.11
    runs it: [_parse_optional] classifies every string before the first
    [--], the loop of [_parse_known_args] lets positionals and options
    consume the strings, a value outside [choices] and anything left over
    are usage errors (exit status 2), and [-h] prints the help and exits
    with status 0. *)

Module Argparse.

Record Namespace : Type := mkNamespace {
  data_file : string;
  schema_file : string;
  data_type : option string;
  schema_type : option string;
  log_level : string
}.

(** A value argparse stores in the namespace: the argument string, or the
    empty list that [_get_values] leaves when the only string it was
    given is [--] (it strips the first [--] of every argument list). *)
Inductive value : Type :=
| VStr (s : string)
| VEmptyList.

(** The namespace as argparse can really fill it. *)
Record RawNamespace : Type := mkRaw {
  raw_data_file : value;
  raw_schema_file : value;
  raw_data_type : option value;
  raw_schema_type : option value;
  raw_log_level : value
}.

Inductive action : Type := AHelp | ADataType | ASchemaType | ALogLevel.

(** What [setup_argparse] registers: the required positionals, the long
    option strings (argparse adds [--help], and [-h]), the [choices] of
    each option and the default of [--log_level]. *)
Record ArgumentParser : Type := mkParser {
  positional_args : list string;
  optional_args : list (string * action);
  arg_choices : action -> list string;
  log_level_default : string
}.

Definition setup_argparse : ArgumentParser :=
  mkParser
    ["data_file"; "schema_file"]
    [("--help", AHelp); ("--data_type", ADataType);
     ("--schema_type", ASchemaType); ("--log_level", ALogLevel)]
    (fun a =>
       match a with
       | AHelp => []
       | ADataType => ["json"; "yaml"]
       | ASchemaType => ["json"; "yaml"]
       | ALogLevel => ["DEBUG"; "INFO"; "WARNING"; "ERROR"; "CRITICAL"]
       end)
    "INFO".

Definition long_options : list (string * action) := optional_args setup_argparse.

Definition choices (a : action) : list string := arg_choices setup_argparse a.

(** How [_parse_optional] reads one argument string. *)
Inductive token_class : Type :=
| TArg                                            (* a plain argument *)
| TOpt (a : action) (explicit : option string)    (* a registered option *)
| TUnknown                                        (* option-like, not registered *)
| TAmbiguous.                                     (* prefix of several options *)

(** [_negative_number_matcher]: [-5] or [-.5] (the pattern's [$] also
    accepts one final newline); such a string is an argument, the parser
    having no option that looks like a negative number. *)
Fixpoint chomp (s : string) : string :=
  match s with
  | EmptyString => EmptyString
  | String a EmptyString => if Ascii.eqb a "010"%char then EmptyString else s
  | String a s' => String a (chomp s')
  end.

Definition negative_number (s : string) : bool :=
  match s with
  | String "-"%char r =>
      match PyStr.split_once "."%char (chomp r) with
      | (ip, None) => negb (ip =? "") && PyStr.all_chars PyStr.is_digit ip
      | (ip, Some fp) =>
          PyStr.all_chars PyStr.is_digit ip &&
          negb (fp =? "") && PyStr.all_chars PyStr.is_digit fp
      end
  | _ => false
  end.

Definition exact_long (s : string) : option action :=
  option_map snd (find (fun oa => fst oa =? s) long_options).

Definition by_prefix (p : string) : list action :=
  map snd (filter (fun oa => PyStr.startswith (fst oa) p) long_options).

Definition classify (t : string) : token_class :=
  match t with
  | String "-"%char (String "-"%char _) =>
      match exact_long t with
      | Some a => TOpt a None
      | None =>
          let '(name, explicit) := PyStr.split_once "="%char t in
          match exact_long name with
          | Some a => TOpt a explicit
          | None =>
              match by_prefix name with
              | [a] => TOpt a explicit
              | [] => if PyStr.contains_char " "%char t then TArg else TUnknown
              | _ => TAmbiguous
              end
          end
      end
  | String "-"%char EmptyString => TArg
  | String "-"%char (String "h"%char rest) =>
      match rest with
      | EmptyString => TOpt AHelp None
      | String "="%char v => TOpt AHelp (Some v)
      | _ => TOpt AHelp (Some rest)
      end
  | String "-"%char _ =>
      if negative_number t then TArg
      else if PyStr.contains_char " "%char t then TArg
      else TUnknown
  | _ => TArg
  end.

(** One character of argparse's [arg_strings_pattern]: [A], [O] (with what
    [_parse_optional] returned) or [-] for the first [--]. *)
Inductive pat : Type :=
| PA
| PO (c : token_class)
| PDash.

(** The first pass of [_parse_known_args]: every string before the first
    [--] is classified, every string after it is an argument.  An
    ambiguous abbreviation is an error here, before any action is taken. *)
Fixpoint arg_strings_pattern (toks : list string) (dd : bool)
    : option (list (string * pat)) :=
  match toks with
  | [] => Some []
  | t :: rest =>
      if dd then option_map (cons (t, PA)) (arg_strings_pattern rest true)
      else if t =? "--" then option_map (cons (t, PDash)) (arg_strings_pattern rest true)
      else
        match classify t with
        | TAmbiguous => None
        | TArg => option_map (cons (t, PA)) (arg_strings_pattern rest false)
        | c => option_map (cons (t, PO c)) (arg_strings_pattern rest false)
        end
  end.

Record pstate : Type := mkPstate {
  positionals : list value;
  p_data_type : option value;
  p_schema_type : option value;
  p_log_level : value;
  extras : bool
}.

(** Defaults: both type flags absent, [--log_level] at [INFO]. *)
Definition initial : pstate :=
  mkPstate [] None None (VStr (log_level_default setup_argparse)) false.

Inductive parse_result : Type :=
| Parsed (args : Namespace)
| ParsedRaw (raw : RawNamespace)      (* some value is the empty list *)
| SystemExit (status : Z) (text : string).

Definition usage_error (msg : string) : parse_result := SystemExit 2 msg.
Definition help_exit : parse_result := SystemExit 0 "usage".

Definition in_choices (a : action) (v : string) : bool :=
  existsb (String.eqb v) (choices a).

(** [_get_values] on the one string of a valued option: [--] becomes the
    empty list and escapes the [choices] check. *)
Definition explicit_value (v : string) : value :=
  if v =? "--" then VEmptyList else VStr v.

Definition value_allowed (a : action) (v : value) : bool :=
  match v with
  | VStr s => in_choices a s
  | VEmptyList => true
  end.

(** The [store] action of a valued option, after the [choices] check. *)
Definition store (a : action) (v : value) (s : pstate) : option pstate :=
  if value_allowed a v then
    match a with
    | ADataType =>
        Some (mkPstate (positionals s) (Some v) (p_schema_type s) (p_log_level s) (extras s))
    | ASchemaType =>
        Some (mkPstate (positionals s) (p_data_type s) (Some v) (p_log_level s) (extras s))
    | ALogLevel =>
        Some (mkPstate (positionals s) (p_data_type s) (p_schema_type s) v (extras s))
    | AHelp => None
    end
  else None.

Definition add_positional (v : value) (s : pstate) : pstate :=
  mkPstate (positionals s ++ [v]) (p_data_type s) (p_schema_type s) (p_log_level s) (extras s).

Definition add_extra (s : pstate) : pstate :=
  mkPstate (positionals s) (p_data_type s) (p_schema_type s) (p_log_level s) true.

(** A positional still to be filled takes the string; otherwise the
    string is left over. *)
Definition take_positional (t : string) (s : pstate) : pstate :=
  if Nat.ltb (length (positionals s)) (length (positional_args setup_argparse))
  then add_positional (VStr t) s
  else add_extra s.

Definition string_of_value (v : value) : option string :=
  match v with VStr s => Some s | VEmptyList => None end.

Definition strings_of_flag (o : option value) : option (option string) :=
  match o with
  | None => Some None
  | Some (VStr s) => Some (Some s)
  | Some VEmptyList => None
  end.

(** The namespace, as strings when every value is a string. *)
Definition namespace_of (d sc : value) (s : pstate) : parse_result :=
  match string_of_value d, string_of_value sc,
        strings_of_flag (p_data_type s), strings_of_flag (p_schema_type s),
        string_of_value (p_log_level s) with
  | Some d', Some sc', Some dt, Some st, Some ll => Parsed (mkNamespace d' sc' dt st ll)
  | _, _, _, _, _ =>
      ParsedRaw (mkRaw d sc (p_data_type s) (p_schema_type s) (p_log_level s))
  end.

(** End of the argument vector: both positionals are required, and
    anything left over is an error of [parse_args]. *)
Definition finish (s : pstate) : parse_result :=
  match positionals s with
  | [d; sc] =>
      if extras s then usage_error "unrecognized arguments"
      else namespace_of d sc s
  | [] | [_] => usage_error "the following arguments are required"
  | _ => usage_error "unrecognized arguments"
  end.

Definition is_arg (p : string * pat) : bool :=
  match snd p with PA => true | _ => false end.

Definition is_option (p : string * pat) : bool :=
  match snd p with PO _ => true | _ => false end.

(** The value of the [g]-th positional matched after the last option: its
    string, except that a string [--] is stripped and leaves the empty
    list, unless the separator itself stands before it in the same match
    (then the separator is the one stripped). *)
Definition tail_value (leading_dash : bool) (g : nat) (t : string) : value :=
  if t =? "--" then
    if leading_dash && Nat.eqb g 0 then VStr "--" else VEmptyList
  else VStr t.

Fixpoint tail_values (leading_dash : bool) (g : nat) (ts : list string) : list value :=
  match ts with
  | [] => []
  | t :: ts' => tail_value leading_dash g t :: tail_values leading_dash (S g) ts'
  end.

(** [consume_positionals] after the last option: the remaining
    positionals match as many of the remaining arguments as they can, the
    [--] going with the match next to it; what no positional matched is
    left over. *)
Definition consume_tail (pats : list (string * pat)) (s : pstate) : parse_result :=
  let slots := length (positional_args setup_argparse) - length (positionals s) in
  let args := map fst (filter is_arg pats) in
  let taken := firstn slots args in
  let leading_dash := match pats with (_, PDash) :: _ => true | _ => false end in
  let left_over :=
    Nat.ltb (length taken) (length args) ||
    (Nat.eqb (length taken) 0 && negb (Nat.eqb (length pats) 0)) in
  finish (mkPstate (positionals s ++ tail_values leading_dash 0 taken)
                   (p_data_type s) (p_schema_type s) (p_log_level s)
                   (extras s || left_over)).

(** The loop of [_parse_known_args] over the classified strings. *)
Fixpoint consume (pats : list (string * pat)) (s : pstate) : parse_result :=
  match pats with
  | [] => consume_tail [] s
  | (t, PA) :: rest =>
      if existsb is_option rest then consume rest (take_positional t s)
      else consume_tail pats s
  | (t, PDash) :: rest => consume_tail pats s
  | (t, PO c) :: rest =>
      match c with
      | TOpt AHelp None => help_exit
      | TOpt AHelp (Some v) =>
          if negb (PyStr.startswith t "--") && negb (v =? "") &&
             PyStr.all_chars (Ascii.eqb "h"%char) v
          then help_exit
          else usage_error "ignored explicit argument"
      | TOpt a (Some v) =>
          match store a (explicit_value v) s with
          | Some s' => consume rest s'
          | None => usage_error "invalid choice"
          end
      | TOpt a None =>
          match rest with
          | (v, PA) :: rest' =>
              match store a (VStr v) s with
              | Some s' => consume rest' s'
              | None => usage_error "invalid choice"
              end
          | _ => usage_error "expected one argument"
          end
      | _ => consume rest (add_extra s)
      end
  end.

(** [parser.parse_args()] on [sys.argv[1:]]. *)
Definition parse_args (argv : list string) : parse_result :=
  match arg_strings_pattern argv false with
  | None => usage_error "ambiguous option"
  | Some pats => consume pats initial
  end.

End Argparse.

(** A word that does not start with a dash. *)
Definition plain_word (t : string) : bool := negb (PyStr.startswith t "-").

(** ** The program *)

Section Program.

(** The text-to-document parsers behind [json.load] and [yaml.safe_load],
    and [jsonschema.validate], which returns normally ([None]) or raises. *)
Variable json_loads : string -> exn + Document.
Variable yaml_safe_loads : string -> exn + Document.
Variable validate : Document -> Document -> option exn.

Variable fs : FileSystem.

(** [json.load(f)]: read the file, then parse the text. *)
Definition json_load (f : file) : M Document :=
  match f with
  | inl e => raise e
  | inr text => lift (json_loads text)
  end.

(** [yaml.safe_load(f)] *)
Definition yaml_safe_load (f : file) : M Document :=
  match f with
  | inl e => raise e
  | inr text => lift (yaml_safe_loads text)
  end.

(** [with open(path, 'r') as f: body f] *)
Definition with_open {A} (path : string) (body : file -> M A) : M A :=
  match fs_open fs path with
  | inl e => emit (EvOpen path false) ;;; raise e
  | inr f => emit (EvOpen path true) ;;; finally (body f) [EvClose path]
  end.

(** Line 44: [file_path.split('.')[-1].lower()] *)
Definition infer_type (file_path : string) : string :=
  PyStr.lower (PyStr.last_item (PyStr.split "."%char file_path)).

(** Lines 43-44: the type [load_data] dispatches on. *)
Definition resolve_type (file_path : string) (file_type : option string) : string :=
  match file_type with
  | None => infer_type file_path
  | Some t => t
  end.

(** Line 53: the [ValueError] for a type that is neither JSON nor YAML. *)
Definition unsupported (file_type : string) : exn :=
  mkExn ValueError
    ("Unsupported file type: " ++ file_type ++ ".  Must be json or yaml/yml.").

(** Lines 47-53: the body of the [try]. *)
Definition load_body (file_path file_type : string) : M Document :=
  with_open file_path (fun f =>
    if file_type =? "json" then json_load f
    else if (file_type =? "yaml") || (file_type =? "yml") then yaml_safe_load f
    else raise (unsupported file_type)).

(** Lines 54-65: the [except] clauses, tried in order; each logs and
    re-raises the same exception. *)
Definition load_except (file_path : string) (e : exn) : M Document :=
  if isinstance e FileNotFoundError then
    logging_error ("File not found: " ++ file_path) ;;; raise e
  else if isinstance e JSONDecodeError then
    logging_error ("Error decoding JSON in " ++ file_path ++ ": " ++ exn_str e) ;;; raise e
  else if isinstance e YAMLError then
    logging_error ("Error decoding YAML in " ++ file_path ++ ": " ++ exn_str e) ;;; raise e
  else if isinstance e Exception then
    logging_error ("Error loading data from " ++ file_path ++ ": " ++ exn_str e) ;;; raise e
  else raise e.

Definition load_data (file_path : string) (file_type : option string) : M Document :=
  if negb (path_exists fs file_path) then
    raise (mkExn FileNotFoundError ("File not found: " ++ file_path))
  else
    let file_type := resolve_type file_path file_type in
    try_except (load_body file_path file_type) (load_except file_path).

(** Lines 79-90. *)
Definition validate_data (data schema : Document) : M unit :=
  try_except
    (lift (match validate data schema with
           | Some e => inl e
           | None => inr tt
           end) ;;;
     logging_info "Data validation successful.")
    (fun e =>
       if isinstance e ValidationError then
         logging_error ("Data validation failed: " ++ exn_str e) ;;; raise e
       else if isinstance e SchemaError then
         logging_error ("Schema validation failed: " ++ exn_str e) ;;; raise e
       else if isinstance e Exception then
         logging_error ("An unexpected error occurred during validation: " ++ exn_str e) ;;;
         raise e
       else raise e).

(** The [except] clause of [main] that catches an exception, if any. *)
Inductive handler : Type :=
| HFileNotFound | HValueError | HValidationError | HSchemaError | HException.

Definition main_except (e : exn) : option handler :=
  if isinstance e FileNotFoundError then Some HFileNotFound
  else if isinstance e ValueError then Some HValueError
  else if isinstance e ValidationError then Some HValidationError
  else if isinstance e SchemaError then Some HSchemaError
  else if isinstance e Exception then Some HException
  else None.

(** What each clause prints before [exit(1)]. *)
Definition handler_message (h : handler) (e : exn) : string :=
  match h with
  | HFileNotFound => "Error: " ++ exn_str e
  | HValueError => "Error: " ++ exn_str e
  | HValidationError => "Validation Error: " ++ exn_str e
  | HSchemaError => "Schema Error: " ++ exn_str e
  | HException => "An unexpected error occurred: " ++ exn_str e
  end.

(** The argument of [exit] in each clause. *)
Definition handler_status (h : handler) : Z :=
  match h with
  | HFileNotFound => 1
  | HValueError => 1
  | HValidationError => 1
  | HSchemaError => 1
  | HException => 1
  end.

(** The outcome of a run: its effects and the process exit status. *)
Record outcome : Type := mkOutcome { effects : trace; exit_code : Z }.

(** An exception nobody catches: the interpreter prints a traceback and
    the process ends with status 1. *)
Definition uncaught (t : trace) (e : exn) : outcome :=
  mkOutcome (t ++ [EvTraceback (exn_str e)]) 1.

(** Lines 102-106: the body of the [try] in [main]. *)
Definition pipeline (args : Argparse.Namespace) : M unit :=
  data <- load_data (Argparse.data_file args) (Argparse.data_type args) ;;
  schema <- load_data (Argparse.schema_file args) (Argparse.schema_type args) ;;
  validate_data data schema ;;;
  print "Validation successful!".

(** Lines 99-122: [main] once the arguments are parsed. *)
Definition run (args : Argparse.Namespace) : outcome :=
  match level_of_name (Argparse.log_level args) with
  | None => uncaught [] (mkExn ValueError ("Unknown level: " ++ Argparse.log_level args))
  | Some lvl =>
      match pipeline args with
      | (t, inr _) => mkOutcome (EvSetLevel lvl :: t) 0
      | (t, inl e) =>
          match main_except e with
          | Some h =>
              mkOutcome (EvSetLevel lvl :: t ++ [EvPrint (handler_message h e)])
                        (handler_status h)
          | None => uncaught (EvSetLevel lvl :: t) e
          end
      end
  end.

(** [load_data] on the values of a namespace that holds an empty list.
    [os.path.exists([])] raises a [TypeError] at line 40, outside the
    [try]; a type that is the empty list is not [None] and equals none of
    the three names, so it ends in the [ValueError] of line 53, whose text
    shows it as [[]]. *)
Definition load_data_value (file_path : Argparse.value)
    (file_type : option Argparse.value) : M Document :=
  match file_path with
  | Argparse.VEmptyList =>
      raise (mkExn TypeError
               "stat: path should be string, bytes, os.PathLike or integer, not list")
  | Argparse.VStr p =>
      load_data p (match file_type with
                   | None => None
                   | Some (Argparse.VStr t) => Some t
                   | Some Argparse.VEmptyList => Some "[]"
                   end)
  end.

Definition pipeline_raw (raw : Argparse.RawNamespace) : M unit :=
  data <- load_data_value (Argparse.raw_data_file raw) (Argparse.raw_data_type raw) ;;
  schema <- load_data_value (Argparse.raw_schema_file raw) (Argparse.raw_schema_type raw) ;;
  validate_data data schema ;;;
  print "Validation successful!".

(** [setLevel] on a value of the namespace: a list is refused with a
    [TypeError], which nothing catches (line 100 is outside the [try]). *)
Definition set_level (v : Argparse.value) : exn + level :=
  match v with
  | Argparse.VEmptyList =>
      inl (mkExn TypeError "Level not an integer or a valid string: []")
  | Argparse.VStr name =>
      match level_of_name name with
      | Some lvl => inr lvl
      | None => inl (mkExn ValueError ("Unknown level: " ++ name))
      end
  end.

(** Lines 99-122 on a namespace that holds an empty list. *)
Definition run_raw (raw : Argparse.RawNamespace) : outcome :=
  match set_level (Argparse.raw_log_level raw) with
  | inl e => uncaught [] e
  | inr lvl =>
      match pipeline_raw raw with
      | (t, inr _) => mkOutcome (EvSetLevel lvl :: t) 0
      | (t, inl e) =>
          match main_except e with
          | Some h =>
              mkOutcome (EvSetLevel lvl :: t ++ [EvPrint (handler_message h e)])
                        (handler_status h)
          | None => uncaught (EvSetLevel lvl :: t) e
          end
      end
  end.

(** Lines 92-122: [main] on [sys.argv[1:]]. *)
Definition main (argv : list string) : outcome :=
  match Argparse.parse_args argv with
  | Argparse.SystemExit status text => mkOutcome [EvArgparse text] status
  | Argparse.Parsed args => run args
  | Argparse.ParsedRaw raw => run_raw raw
  end.

(** *** Summaries of the clauses, used to state the properties *)

(** The text of the one error record that [load_except] writes. *)
Definition load_failure_message (file_path : string) (e : exn) : string :=
  if isinstance e FileNotFoundError then "File not found: " ++ file_path
  else if isinstance e JSONDecodeError then
    "Error decoding JSON in " ++ file_path ++ ": " ++ exn_str e
  else if isinstance e YAMLError then
    "Error decoding YAML in " ++ file_path ++ ": " ++ exn_str e
  else "Error loading data from " ++ file_path ++ ": " ++ exn_str e.

Inductive format : Type := JSON | YAML.

(** The parser that the tests of lines 48-52 select for a resolved type. *)
Definition format_of (file_type : string) : option format :=
  if file_type =? "json" then Some JSON
  else if (file_type =? "yaml") || (file_type =? "yml") then Some YAML
  else None.

(** What the body of the [with] block computes from the opened file. *)
Definition read_document (file_type : string) (f : file) : exn + Document :=
  match format_of file_type with
  | Some JSON => match f with inl e => inl e | inr text => json_loads text end
  | Some YAML => match f with inl e => inl e | inr text => yaml_safe_loads text end
  | None => inl (unsupported file_type)
  end.

(** The text of the error record that [validate_data] writes. *)
Definition validate_failure_message (e : exn) : string :=
  if isinstance e ValidationError then "Data validation failed: " ++ exn_str e
  else if isinstance e SchemaError then "Schema validation failed: " ++ exn_str e
  else "An unexpected error occurred during validation: " ++ exn_str e.

(** The parser, the class of its syntax error, the dedicated log record of
    [load_data] and the clause of [main] that ends up catching the error,
    for each format. *)
Definition parser_of (fmt : format) : string -> exn + Document :=
  match fmt with JSON => json_loads | YAML => yaml_safe_loads end.

Definition decode_error (fmt : format) : exn_class :=
  match fmt with JSON => JSONDecodeError | YAML => YAMLError end.

Definition decode_log (fmt : format) (file_path : string) (e : exn) : string :=
  match fmt with
  | JSON => "Error decoding JSON in " ++ file_path ++ ": " ++ exn_str e
  | YAML => "Error decoding YAML in " ++ file_path ++ ": " ++ exn_str e
  end.

Definition decode_report (fmt : format) (e : exn) : string :=
  match fmt with
  | JSON => "Error: " ++ exn_str e
  | YAML => "An unexpected error occurred: " ++ exn_str e
  end.

End Program.

(** ** The text of a jsonschema error

    [jsonschema.validate] raises exceptions whose [str] is laid out by the
    library ([_Error.__str__]): the message, the keyword that failed and
    where it stands in the schema, the failing schema, and the place in
    the instance with the failing value.  Paths are lists of the [repr] of
    their indices. *)

Module Jsonschema.

Local Open Scope string_scope.

Definition nl : string := String "010"%char EmptyString.

Record error : Type := mkError {
  message : string;
  validator : string;             (* [repr] of the failing keyword *)
  schema_path : list string;      (* [relative_schema_path], last index left out *)
  schema_text : string;           (* the failing schema, pretty-printed *)
  instance_path : list string;    (* [relative_path] *)
  instance_text : string          (* the failing value, pretty-printed *)
}.

(** [_utils.format_as_index]: [instance['age'][0]]. *)
Definition format_as_index (container : string) (indices : list string) : string :=
  container ++ String.concat "" (map (fun r => "[" ++ r ++ "]") indices).

(** The line that names the place in the instance (or, for a schema error,
    in the schema). *)
Definition place (word : string) (path : list string) : string :=
  "On " ++ format_as_index word path ++ ":".

Definition error_str (schema_word instance_word : string) (err : error) : string :=
  message err ++ nl ++ nl ++
  "Failed validating " ++ validator err ++ " in "
    ++ format_as_index schema_word (schema_path err) ++ ":" ++ nl ++
  "    " ++ schema_text err ++ nl ++ nl ++
  place instance_word (instance_path err) ++ nl ++
  "    " ++ instance_text err.

(** A [ValidationError] speaks of [schema] and [instance], a [SchemaError]
    of [metaschema] and [schema]. *)
Definition validation_error (err : error) : exn :=
  mkExn ValidationError (error_str "schema" "instance" err).

Definition schema_error (err : error) : exn :=
  mkExn SchemaError (error_str "metaschema" "schema" err).

End Jsonschema.

(** ** A concrete world

    A small file system, what the two parsers return on the texts of its
    files, and a schema engine for the keywords [type], [properties] and
    [required], used to run the program on concrete inputs. *)

Module World.

Local Open Scope string_scope.

Definition dq : string := String (ascii_of_nat 34) EmptyString.
Definition quoted (s : string) : string := dq ++ s ++ dq.
Definition nl : string := Jsonschema.nl.

(** [{"name": "John Doe", "age": 30}] *)
Definition person_json : string :=
  "{" ++ quoted "name" ++ ": " ++ quoted "John Doe" ++ ", " ++ quoted "age" ++ ": 30}".
Definition person : Document :=
  DMap [("name", DStr "John Doe"); ("age", DInt 30)].

(** [{"name": "John Doe", "age": "30"}] *)
Definition person_bad_json : string :=
  "{" ++ quoted "name" ++ ": " ++ quoted "John Doe" ++ ", " ++ quoted "age" ++ ": "
      ++ quoted "30" ++ "}".
Definition person_bad : Document :=
  DMap [("name", DStr "John Doe"); ("age", DStr "30")].

(** The schema of the usage notes, written as YAML. *)
Definition schema_yaml : string :=
  "{type: object, properties: {name: {type: string}, age: {type: integer}}, required: [name, age]}".
Definition schema : Document :=
  DMap [("type", DStr "object");
        ("properties", DMap [("name", DMap [("type", DStr "string")]);
                             ("age", DMap [("type", DStr "integer")])]);
        ("required", DSeq [DStr "name"; DStr "age"])].

(** [{"type": "not-a-type"}] *)
Definition bad_schema_json : string :=
  "{" ++ quoted "type" ++ ": " ++ quoted "not-a-type" ++ "}".
Definition bad_schema : Document := DMap [("type", DStr "not-a-type")].

(** [{"name": }] *)
Definition truncated_json : string := "{" ++ quoted "name" ++ ": }".

(** A flow sequence that is never closed. *)
Definition unclosed_yaml : string := "required: [name, age".

(** A thousand arrays opened one inside the other. *)
Definition deep_json : string := String.concat "" (repeat "[" 1000).

Definition lookup {A} (k : string) (l : list (string * A)) : option A :=
  option_map snd (find (fun kv => fst kv =? k) l).

(** A text the tables below do not list: they do not say what the parsers
    make of it. *)
Definition outside (text : string) : exn :=
  mkExn RuntimeError ("no file of this world holds the text: " ++ text).

Definition expecting_value (where_ : string) : exn :=
  mkExn JSONDecodeError ("Expecting value: " ++ where_).

(** [json.loads] on the texts of the files. *)
Definition json_loads (text : string) : exn + Document :=
  match lookup text
          [(person_json, inr person);
           (person_bad_json, inr person_bad);
           (bad_schema_json, inr bad_schema);
           ("30", inr (DInt 30));
           (truncated_json, inl (expecting_value "line 1 column 10 (char 9)"));
           (schema_yaml,
            inl (mkExn JSONDecodeError
                   "Expecting property name enclosed in double quotes: line 1 column 2 (char 1)"));
           ("age: 30", inl (expecting_value "line 1 column 1 (char 0)"));
           (unclosed_yaml, inl (expecting_value "line 1 column 1 (char 0)"));
           ("remember the milk", inl (expecting_value "line 1 column 1 (char 0)"));
           ("", inl (expecting_value "line 1 column 1 (char 0)"));
           (deep_json,
            inl (mkExn RecursionError
                   ("maximum recursion depth exceeded while decoding a JSON array "
                      ++ "from a unicode string")))] with
  | Some r => r
  | None => inl (outside text)
  end.

(** The text of the [ParserError] for [broken.yaml]; the marks name the
    file the stream was opened from. *)
Definition unclosed_yaml_error : exn :=
  mkExn ParserError
    ("while parsing a flow sequence" ++ nl ++
     "  in " ++ quoted "broken.yaml" ++ ", line 1, column 11" ++ nl ++
     "expected ',' or ']', but got '<stream end>'" ++ nl ++
     "  in " ++ quoted "broken.yaml" ++ ", line 1, column 21").

(** [yaml.safe_load] on the texts of the files ([deep_json] apart); a
    JSON text is YAML too, and an empty stream loads as [None]. *)
Definition yaml_safe_loads (text : string) : exn + Document :=
  match lookup text
          [(schema_yaml, inr schema);
           ("age: 30", inr (DMap [("age", DInt 30)]));
           (person_json, inr person);
           (person_bad_json, inr person_bad);
           (bad_schema_json, inr bad_schema);
           (truncated_json, inr (DMap [("name", DNull)]));
           ("30", inr (DInt 30));
           ("remember the milk", inr (DStr "remember the milk"));
           ("", inr DNull);
           (unclosed_yaml, inl unclosed_yaml_error)] with
  | Some r => r
  | None => inl (outside text)
  end.

(** *** The engine

    It follows jsonschema on schemas made of [type], [properties] and
    [required] (other keywords are not looked at), for documents whose
    pretty-printed form fits on one line and whose strings need no
    escaping. *)

Definition type_names : list string :=
  ["object"; "array"; "string"; "integer"; "number"; "boolean"; "null"].

(** [float.is_integer] on a binary64 bit pattern. *)
Definition float_is_integer (bits : Z) : bool :=
  let e := Z.land (Z.shiftr bits 52) 2047 in
  let m := Z.land bits (Z.ones 52) in
  if (e =? 2047)%Z then false
  else if (e =? 0)%Z then (m =? 0)%Z
  else if (e <? 1023)%Z then false
  else if (1075 <=? e)%Z then true
  else (Z.land m (Z.ones (1075 - e)) =? 0)%Z.

(** The type checks of the current draft: a bool is no integer, a float
    with no fractional part is one. *)
Definition has_type (d : Document) (t : string) : bool :=
  match d with
  | DNull => t =? "null"
  | DBool _ => t =? "boolean"
  | DInt _ => (t =? "integer") || (t =? "number")
  | DFloat bits => (t =? "number") || ((t =? "integer") && float_is_integer bits)
  | DStr _ => t =? "string"
  | DSeq _ => t =? "array"
  | DMap _ => t =? "object"
  end.

Definition repr_str (s : string) : string := "'" ++ s ++ "'".

Definition decimal (n : Z) : string := NilZero.string_of_int (Z.to_int n).

(** [repr] of a float with no fractional part below 1e16; other floats
    are not printed by this engine. *)
Definition repr_float (bits : Z) : string :=
  let e := Z.land (Z.shiftr bits 52) 2047 in
  let m := Z.land bits (Z.ones 52) in
  let sign := if Z.testbit bits 63 then "-" else "" in
  let magnitude :=
    if (e =? 0)%Z then 0%Z
    else if (1075 <=? e)%Z then Z.shiftl (2 ^ 52 + m) (e - 1075)
    else Z.shiftr (2 ^ 52 + m) (1075 - e) in
  if float_is_integer bits && (magnitude <? 10 ^ 16)%Z
  then sign ++ decimal magnitude ++ ".0"
  else "<float>".

Fixpoint insert_sorted (kv : string * Document) (l : list (string * Document))
    : list (string * Document) :=
  match l with
  | [] => [kv]
  | h :: t => if String.leb (fst kv) (fst h) then kv :: l else h :: insert_sorted kv t
  end.

(** [repr(d)], or [pprint.pformat(d)] (keys in order) when [sorted]. *)
Fixpoint repr (fuel : nat) (sorted : bool) (d : Document) : string :=
  match fuel with
  | O => "..."
  | S fuel' =>
      match d with
      | DNull => "None"
      | DBool true => "True"
      | DBool false => "False"
      | DInt n => decimal n
      | DFloat bits => repr_float bits
      | DStr s => repr_str s
      | DSeq items => "[" ++ String.concat ", " (map (repr fuel' sorted) items) ++ "]"
      | DMap fields =>
          let fields := if sorted then fold_right insert_sorted [] fields else fields in
          "{" ++ String.concat ", "
                   (map (fun kv => repr_str (fst kv) ++ ": " ++ repr fuel' sorted (snd kv))
                        fields) ++ "}"
      end
  end.

Definition pformat (d : Document) : string := repr 16 true d.

Definition type_list (v : Document) : list string :=
  match v with
  | DStr t => [t]
  | DSeq ts => flat_map (fun t => match t with DStr s => [s] | _ => [] end) ts
  | _ => []
  end.

(** [iter_errors]: the keywords of the schema in their order, each giving
    its errors; [properties] descends into the members that are present. *)
Fixpoint iter_errors (fuel : nat) (ipath spath : list string) (inst sch : Document)
    : list Jsonschema.error :=
  match fuel with
  | O => []
  | S fuel' =>
      match sch with
      | DBool false =>
          [Jsonschema.mkError ("False schema does not allow " ++ repr 16 false inst)
             "None" spath "False" ipath (pformat inst)]
      | DMap fields =>
          flat_map
            (fun kv =>
               if fst kv =? "type" then
                 if existsb (has_type inst) (type_list (snd kv)) then []
                 else
                   [Jsonschema.mkError
                      (repr 16 false inst ++ " is not of type "
                         ++ String.concat ", " (map repr_str (type_list (snd kv))))
                      "'type'" spath (pformat sch) ipath (pformat inst)]
               else if fst kv =? "properties" then
                 match inst, snd kv with
                 | DMap items, DMap props =>
                     flat_map
                       (fun p =>
                          match lookup (fst p) items with
                          | Some v =>
                              iter_errors fuel' (ipath ++ [repr_str (fst p)])%list
                                (spath ++ ["'properties'"; repr_str (fst p)])%list
                                v (snd p)
                          | None => []
                          end) props
                 | _, _ => []
                 end
               else if fst kv =? "required" then
                 match inst, snd kv with
                 | DMap items, DSeq req =>
                     flat_map
                       (fun r =>
                          match r with
                          | DStr name =>
                              match lookup name items with
                              | Some _ => []
                              | None =>
                                  [Jsonschema.mkError
                                     (repr_str name ++ " is a required property")
                                     "'required'" spath (pformat sch) ipath (pformat inst)]
                              end
                          | _ => []
                          end) req
                 | _, _ => []
                 end
               else [])
            fields
      | _ => []
      end
  end.

(** [best_match]: the error highest up in the instance, the first of
    several at the same height (jsonschema ranks these further by their
    keyword, which the three keywords of this engine never need). *)
Fixpoint best_match (errs : list Jsonschema.error) : option Jsonschema.error :=
  match errs with
  | [] => None
  | e :: rest =>
      match best_match rest with
      | Some b =>
          if Nat.ltb (length (Jsonschema.instance_path b)) (length (Jsonschema.instance_path e))
          then Some b else Some e
      | None => Some e
      end
  end.

(** What the metaschema of the current draft allows under [type]. *)
Definition metaschema_type_text : string :=
  "{'anyOf': [{'$ref': '#/$defs/simpleTypes'}," ++ nl ++
  "               {'items': {'$ref': '#/$defs/simpleTypes'}," ++ nl ++
  "                'minItems': 1," ++ nl ++
  "                'type': 'array'," ++ nl ++
  "                'uniqueItems': True}]}".

Definition valid_type_value (v : Document) : bool :=
  match v with
  | DStr t => existsb (String.eqb t) type_names
  | DSeq ts =>
      negb (Nat.eqb (length ts) 0) &&
      forallb (fun t => match t with
                        | DStr s => existsb (String.eqb s) type_names
                        | _ => false
                        end) ts &&
      Nat.eqb (length (nodup string_dec (type_list v))) (length ts)
  | _ => false
  end.

(** [check_schema] on the [type] of the schema and of the schemas under
    [properties].  The error for a [type] at the top of the schema has
    jsonschema's full text; for a schema that is no mapping, and below the
    top of the schema, only the message line of the error is given. *)
Fixpoint check_schema (fuel : nat) (top : bool) (sch : Document) : option exn :=
  match fuel with
  | O => None
  | S fuel' =>
      match sch with
      | DBool _ => None
      | DMap fields =>
          fold_right
            (fun kv later =>
               if fst kv =? "type" then
                 if valid_type_value (snd kv) then later
                 else if top then
                   Some (Jsonschema.schema_error
                           (Jsonschema.mkError
                              (repr 16 false (snd kv)
                                 ++ " is not valid under any of the given schemas")
                              "'anyOf'" ["'allOf'"; "3"; "'properties'"; "'type'"]
                              metaschema_type_text ["'type'"] (pformat (snd kv))))
                 else
                   Some (mkExn SchemaError
                           (repr 16 false (snd kv)
                              ++ " is not valid under any of the given schemas"))
               else if fst kv =? "properties" then
                 match snd kv with
                 | DMap props =>
                     fold_right (fun p acc =>
                                   match check_schema fuel' false (snd p) with
                                   | Some e => Some e
                                   | None => acc
                                   end) later props
                 | other =>
                     Some (mkExn SchemaError (repr 16 false other ++ " is not of type 'object'"))
                 end
               else later)
            None fields
      | other =>
          Some (mkExn SchemaError
                  (repr 16 false other ++ " is not of type 'object', 'boolean'"))
      end
  end.

Definition not_iterable (type_name : string) : exn :=
  mkExn TypeError ("argument of type '" ++ type_name ++ "' is not iterable").

(** [jsonschema.validate]: [validator_for] looks for [$schema] in the
    schema, which fails on a schema that is no container; then the schema
    is checked, then the instance. *)
Definition validate (inst sch : Document) : option exn :=
  match sch with
  | DNull => Some (not_iterable "NoneType")
  | DInt _ => Some (not_iterable "int")
  | DFloat _ => Some (not_iterable "float")
  | _ =>
      match check_schema 8 true sch with
      | Some e => Some e
      | None => option_map Jsonschema.validation_error
                           (best_match (iter_errors 8 [] [] inst sch))
      end
  end.

Definition files : list (string * file) :=
  [("data.json", inr person_json);
   ("bad_age.json", inr person_bad_json);
   ("schema.YML", inr schema_yaml);
   ("schema.types", inr schema_yaml);
   ("broken.json", inr truncated_json);
   ("broken.yaml", inr unclosed_yaml);
   ("bad_schema.json", inr bad_schema_json);
   ("conf.d/README", inr "age: 30");
   ("README", inr "age: 30")].

Definition permission_denied (path : string) : exn :=
  mkExn PermissionError ("[Errno 13] Permission denied: '" ++ path ++ "'").

(** [locked.json] and [private] exist but may not be read; anything not
    listed is absent. *)
Definition unreadable (p : string) : bool := (p =? "locked.json") || (p =? "private").

Definition fs : FileSystem :=
  mkFS (fun p => unreadable p ||
                 match lookup p files with Some _ => true | None => false end)
       (fun p => if unreadable p then inl (permission_denied p)
                 else match lookup p files with
                      | Some f => inr f
                      | None => inl (mkExn FileNotFoundError
                                       ("[Errno 2] No such file or directory: '" ++ p ++ "'"))
                      end).

Definition load_data := load_data json_loads yaml_safe_loads fs.
Definition main := main json_loads yaml_safe_loads validate fs.

End World.

(** Namespaces and exceptions that occur in the runs below. *)

Module Runs.

Definition default_args (data_file schema_file : string) : Argparse.Namespace :=
  Argparse.mkNamespace data_file schema_file None None "INFO".

Definition yaml_syntax_error : exn := World.unclosed_yaml_error.

Definition json_syntax_error : exn :=
  mkExn JSONDecodeError "Expecting value: line 1 column 10 (char 9)".

Definition too_deep : exn :=
  mkExn RecursionError
    "maximum recursion depth exceeded while decoding a JSON array from a unicode string".

(** The age of [bad_age.json] is a string. *)
Definition age_error : Jsonschema.error :=
  Jsonschema.mkError "'30' is not of type 'integer'" "'type'"
    ["'properties'"; "'age'"] "{'type': 'integer'}" ["'age'"] "'30'".

Definition type_error : exn := Jsonschema.validation_error age_error.

(** The [type] of [bad_schema.json] is no type name. *)
Definition schema_error : exn :=
  Jsonschema.schema_error
    (Jsonschema.mkError "'not-a-type' is not valid under any of the given schemas"
       "'anyOf'" ["'allOf'"; "3"; "'properties'"; "'type'"]
       World.metaschema_type_text ["'type'"] "'not-a-type'").

End Runs.

(** ** Views on traces *)

(** File-handle discipline of a trace: a file is opened only while none is
    held, a close releases the file that is held, and nothing is held at
    the end. *)
Fixpoint handles_ok (held : option string) (t : trace) : bool :=
  match t with
  | [] => match held with None => true | Some _ => false end
  | EvOpen p true :: t' =>
      match held with None => handles_ok (Some p) t' | Some _ => false end
  | EvClose p :: t' =>
      match held with Some q => (q =? p) && handles_ok None t' | None => false end
  | _ :: t' => handles_ok held t'
  end.

(** The four traces a call of [load_data] on [p] can leave, with whether a
    document was returned. *)
Inductive loader_trace (p : string) : trace -> bool -> Prop :=
| lt_missing : loader_trace p [] false
| lt_open_failed (m : string) :
    loader_trace p [EvOpen p false; EvLog ERROR m] false
| lt_read_failed (m : string) :
    loader_trace p [EvOpen p true; EvClose p; EvLog ERROR m] false
| lt_loaded : loader_trace p [EvOpen p true; EvClose p] true.

(** The traces of the [try] statement of [main] for data file [d] and
    schema file [s], with the exit status. *)
Inductive run_trace (d s : string) : trace -> Z -> Prop :=
| rt_data_failed (t : trace) (h : handler) (e : exn) :
    loader_trace d t false ->
    run_trace d s (t ++ [EvPrint (handler_message h e)]) (handler_status h)
| rt_schema_failed (t : trace) (h : handler) (e : exn) :
    loader_trace s t false ->
    run_trace d s ([EvOpen d true; EvClose d] ++ t ++ [EvPrint (handler_message h e)])
              (handler_status h)
| rt_invalid (h : handler) (e : exn) :
    run_trace d s [EvOpen d true; EvClose d; EvOpen s true; EvClose s;
                   EvLog ERROR (validate_failure_message e);
                   EvPrint (handler_message h e)]
              (handler_status h)
| rt_valid :
    run_trace d s [EvOpen d true; EvClose d; EvOpen s true; EvClose s;
                   EvLog INFO "Data validation successful.";
                   EvPrint "Validation successful!"]
              0.


(** ** A second world

    [vanished.json] passes the existence test and is gone when it is
    opened; [notes.txt] holds text of no supported type; [number.json]
    holds the number 30, [empty.yaml] nothing at all and [deep.json] a
    thousand opening brackets; the second engine
    gives up on every input with a [RecursionError]. *)

Module Edge.

Definition no_such_file (path : string) : exn :=
  mkExn FileNotFoundError ("[Errno 2] No such file or directory: '" ++ path ++ "'").

Definition fs : FileSystem :=
  mkFS (fun p => (p =? "vanished.json") || (p =? "notes.txt") || (p =? "number.json")
                 || (p =? "empty.yaml") || (p =? "deep.json") || path_exists World.fs p)
       (fun p => if p =? "vanished.json" then inl (no_such_file p)
                 else if p =? "notes.txt" then inr (inr "remember the milk")
                 else if p =? "number.json" then inr (inr "30")
                 else if p =? "empty.yaml" then inr (inr "")
                 else if p =? "deep.json" then inr (inr World.deep_json)
                 else fs_open World.fs p).

Definition too_deep : exn := mkExn RecursionError "maximum recursion depth exceeded".

Definition validate (inst sch : Document) : option exn := Some too_deep.

Definition load_data := load_data World.json_loads World.yaml_safe_loads fs.
Definition main_deep := main World.json_loads World.yaml_safe_loads validate World.fs.
Definition main := main World.json_loads World.yaml_safe_loads World.validate fs.

End Edge.

(** * Properties *)

(** ** Strings *)

Module PyStrFacts.
Import PyStr.

Lemma split_not_nil (c : ascii) (s : string) : split c s <> [].
Proof.
  destruct s as [|a s]; simpl; [discriminate|].
  destruct (Ascii.eqb a c); [discriminate|].
  destruct (split c s); discriminate.
Qed.

Lemma last_app_cons (l : list string) (x : string) (l' : list string) (d : string) :
  List.last (l ++ x :: l') d = List.last (x :: l') d.
Proof.
  induction l as [|y l IH]; [reflexivity|].
  rewrite <- IH. change ((y :: l) ++ x :: l') with (y :: (l ++ x :: l')).
  destruct (l ++ x :: l') eqn:E; [destruct l; discriminate | reflexivity].
Qed.

(** Splitting [a ++ c ++ b]: some pieces of [a], then the pieces of [b]. *)
Lemma split_app_sep (c : ascii) (a b : string) :
  exists h t, split c (a ++ String c b) = (h :: t) ++ split c b.
Proof.
  induction a as [|x a IH]; simpl.
  - rewrite Ascii.eqb_refl. exists EmptyString, []. reflexivity.
  - destruct IH as (h & t & E). rewrite E.
    destruct (Ascii.eqb x c).
    + exists EmptyString, (h :: t). reflexivity.
    + exists (String x h), t. reflexivity.
Qed.

Lemma last_split_app (c : ascii) (a b : string) :
  last_item (split c (a ++ String c b)) = last_item (split c b).
Proof.
  destruct (split_app_sep c a b) as (h & t & E).
  unfold last_item. rewrite E.
  destruct (split c b) as [|y l] eqn:Eb; [exfalso; exact (split_not_nil _ _ Eb)|].
  apply last_app_cons.
Qed.

Lemma split_no_sep (c : ascii) (s : string) :
  contains_char c s = false -> split c s = [s].
Proof.
  induction s as [|a s IH]; simpl; [reflexivity|].
  destruct (Ascii.eqb a c); simpl; [discriminate|].
  intro H. rewrite (IH H). reflexivity.
Qed.

(** The piece after the last separator. *)
Lemma last_split_ext (c : ascii) (stem ext : string) :
  contains_char c ext = false ->
  last_item (split c (stem ++ String c ext)) = ext.
Proof.
  intro H. rewrite last_split_app, (split_no_sep _ _ H). reflexivity.
Qed.








End PyStrFacts.

(** ** The text of a jsonschema error *)

Module JsonschemaFacts.
Import PyStr PyStrFacts.






End JsonschemaFacts.

(** ** Exceptions and handlers *)

Lemma isinstance_Exception (e : exn) : isinstance e Exception = true.
Proof. destruct e as [c m]; destruct c; reflexivity. Qed.


(** ** The argument parser *)

Module ArgparseFacts.
Import Argparse.

(** A property of the parser state that the actions keep gives a property
    of every result of the loop. *)
Lemma consume_invariant (P : pstate -> Prop) (Q : parse_result -> Prop) :
  (forall a v s s', store a v s = Some s' -> P s -> P s') ->
  (forall t s, P s -> P (take_positional t s)) ->
  (forall s, P s -> P (add_extra s)) ->
  (forall pats s, P s -> Q (consume_tail pats s)) ->
  (forall msg, Q (usage_error msg)) ->
  Q help_exit ->
  forall pats s, P s -> Q (consume pats s).
Proof.
  intros Hstore Htake Hextra Htail Herr Hhelp pats.
  assert (H : forall n pats s, length pats <= n -> P s -> Q (consume pats s)).
  { induction n as [|n IH]; intros [|[t p] rest] s Hlen Hs; simpl in *;
      try (now apply Htail); try lia.
    destruct p as [|c|].
    - destruct (existsb is_option rest); [|now apply Htail].
      apply IH; [lia | now apply Htake].
    - destruct c as [|a [v|]| |]; try (apply IH; [lia | now apply Hextra]).
      + destruct a;
          try (destruct (store _ (explicit_value v) s) eqn:E;
               [apply IH; [lia | eapply Hstore; eassumption] | apply Herr]).
        match goal with |- context [if ?b then _ else _] => destruct b end;
          [apply Hhelp | apply Herr].
      + destruct a; try apply Hhelp;
          (destruct rest as [|[v pv] rest']; [apply Herr|];
           destruct pv; try apply Herr;
           destruct (store _ (VStr v) s) eqn:E;
           [apply IH; [simpl in Hlen; lia | eapply Hstore; eassumption] | apply Herr]).
    - now apply Htail. }
  intros s. now apply (H (length pats)).
Qed.

Definition level_value_ok (v : value) : Prop :=
  match v with
  | VStr name => In name (choices ALogLevel)
  | VEmptyList => True
  end.

Definition level_ok (s : pstate) : Prop := level_value_ok (p_log_level s).

(** Some value of the namespace is the empty list. *)
Definition raw_has_list (raw : RawNamespace) : Prop :=
  raw_data_file raw = VEmptyList \/ raw_schema_file raw = VEmptyList \/
  raw_data_type raw = Some VEmptyList \/ raw_schema_type raw = Some VEmptyList \/
  raw_log_level raw = VEmptyList.

(** What [parse_args] can produce: a namespace of strings whose level is
    one of the choices, a namespace that holds an empty list, the help
    (status 0) or a usage error (status 2). *)
Definition result_ok (r : parse_result) : Prop :=
  match r with
  | Parsed args => In (log_level args) (choices ALogLevel)
  | ParsedRaw raw => raw_has_list raw /\ level_value_ok (raw_log_level raw)
  | SystemExit status _ => status = 0%Z \/ status = 2%Z
  end.

Lemma store_level_ok (a : action) (v : value) (s s' : pstate) :
  store a v s = Some s' -> level_ok s -> level_ok s'.
Proof.
  unfold store, level_ok. destruct (value_allowed a v) eqn:Hc; [|discriminate].
  destruct a; intros [= <-] H; simpl; try assumption.
  destruct v as [name|]; simpl in *; [|exact I].
  unfold in_choices in Hc. apply existsb_exists in Hc.
  destruct Hc as (x & Hin & Hx). apply String.eqb_eq in Hx. now subst.
Qed.

Lemma namespace_of_ok (d sc : value) (s : pstate) :
  level_ok s -> result_ok (namespace_of d sc s).
Proof.
  unfold namespace_of, level_ok, raw_has_list. intro H.
  destruct d, sc, (p_data_type s) as [[|]|], (p_schema_type s) as [[|]|],
    (p_log_level s); simpl in *; try assumption;
    (split; [unfold raw_has_list; simpl; intuition congruence | auto]).
Qed.

Lemma finish_ok (s : pstate) : level_ok s -> result_ok (finish s).
Proof.
  unfold finish. intro H.
  destruct (positionals s) as [|a [|b [|c l]]]; simpl; auto.
  destruct (extras s); simpl; [auto | now apply namespace_of_ok].
Qed.

Lemma consume_ok (pats : list (string * pat)) (s : pstate) :
  level_ok s -> result_ok (consume pats s).
Proof.
  apply (consume_invariant level_ok result_ok).
  - exact store_level_ok.
  - intros t s0 H. unfold take_positional. now destruct (Nat.ltb _ _).
  - intros s0 H. exact H.
  - intros pats0 s0 H. unfold consume_tail. now apply finish_ok.
  - intro msg. right. reflexivity.
  - left. reflexivity.
Qed.

Lemma parse_args_ok (argv : list string) : result_ok (parse_args argv).
Proof.
  unfold parse_args. destruct (arg_strings_pattern argv false).
  - apply consume_ok. unfold level_ok. simpl. auto.
  - right. reflexivity.
Qed.

Lemma choice_is_level (s : string) :
  In s (choices ALogLevel) -> exists lvl, level_of_name s = Some lvl.
Proof.
  simpl. intros [<-|[<-|[<-|[<-|[<-|[]]]]]]; eexists; reflexivity.
Qed.

Lemma parsed_level (argv : list string) (args : Namespace) :
  parse_args argv = Parsed args -> exists lvl, level_of_name (log_level args) = Some lvl.
Proof.
  intro H. pose proof (parse_args_ok argv) as Hok. rewrite H in Hok.
  now apply choice_is_level.
Qed.

End ArgparseFacts.

(** ** The loader *)

Ltac run_effects :=
  cbv [try_except bind emit raise ret finally lift json_load yaml_safe_load
       logging_error logging_info print app].

Section LoaderFacts.

Variable json_loads : string -> exn + Document.
Variable yaml_safe_loads : string -> exn + Document.
Variable fs : FileSystem.

Ltac unfold_load_data := unfold load_data, load_body, with_open, read_document.

Local Abbreviation load_data := (load_data json_loads yaml_safe_loads fs).
Local Abbreviation read_document := (read_document json_loads yaml_safe_loads).

Lemma load_except_eq (file_path : string) (e : exn) :
  load_except file_path e = ([EvLog ERROR (load_failure_message file_path e)], inl e).
Proof.
  unfold load_except, load_failure_message.
  rewrite (isinstance_Exception e).
  destruct (isinstance e FileNotFoundError); [reflexivity|].
  destruct (isinstance e JSONDecodeError); [reflexivity|].
  destruct (isinstance e YAMLError); reflexivity.
Qed.

(** [load_data] on a path that exists, case by case. *)
Lemma load_data_existing (file_path : string) (file_type : option string) :
  path_exists fs file_path = true ->
  load_data file_path file_type =
    match fs_open fs file_path with
    | inl e =>
        ([EvOpen file_path false; EvLog ERROR (load_failure_message file_path e)], inl e)
    | inr f =>
        match read_document (resolve_type file_path file_type) f with
        | inl e =>
            ([EvOpen file_path true; EvClose file_path;
              EvLog ERROR (load_failure_message file_path e)], inl e)
        | inr d => ([EvOpen file_path true; EvClose file_path], inr d)
        end
    end.
Proof.
  intro Hex. unfold_load_data.
  rewrite Hex. simpl negb. cbv iota.
  destruct (fs_open fs file_path) as [e|f].
  - run_effects. now rewrite load_except_eq.
  - unfold format_of.
    destruct (resolve_type file_path file_type =? "json");
      [|destruct ((resolve_type file_path file_type =? "yaml")
                  || (resolve_type file_path file_type =? "yml"))].
    + destruct f as [e|text]; run_effects; [now rewrite load_except_eq|].
      destruct (json_loads text) as [e|d]; [now rewrite load_except_eq | reflexivity].
    + destruct f as [e|text]; run_effects; [now rewrite load_except_eq|].
      destruct (yaml_safe_loads text) as [e|d]; [now rewrite load_except_eq | reflexivity].
    + run_effects. now rewrite load_except_eq.
Qed.

Lemma load_data_missing (file_path : string) (file_type : option string) :
  path_exists fs file_path = false ->
  load_data file_path file_type =
    ([], inl (mkExn FileNotFoundError ("File not found: " ++ file_path))).
Proof. intro H. unfold_load_data. rewrite H. reflexivity. Qed.

(** A load that returns a document opened and closed the file and did
    nothing else. *)
Lemma load_data_ok_trace (file_path : string) (file_type : option string)
    (t : trace) (d : Document) :
  load_data file_path file_type = (t, inr d) ->
  path_exists fs file_path = true /\ t = [EvOpen file_path true; EvClose file_path].
Proof.
  destruct (path_exists fs file_path) eqn:Hex.
  - rewrite (load_data_existing _ _ Hex).
    destruct (fs_open fs file_path) as [e|f]; [discriminate|].
    destruct (read_document _ f); [discriminate|].
    intros [= <- _]. auto.
  - rewrite (load_data_missing _ _ Hex). discriminate.
Qed.

(** Every failure of [load_data] on an existing path ends with an error
    record, and the exception still reaches the caller. *)
Lemma load_data_failure_logged (file_path : string) (file_type : option string)
    (t : trace) (e : exn) :
  path_exists fs file_path = true ->
  load_data file_path file_type = (t, inl e) ->
  exists t0, t = t0 ++ [EvLog ERROR (load_failure_message file_path e)].
Proof.
  intros Hex. rewrite (load_data_existing _ _ Hex).
  destruct (fs_open fs file_path) as [e0|f].
  - intros [= <- <-]. now exists [EvOpen file_path false].
  - destruct (read_document _ f); [|discriminate].
    intros [= <- <-]. now exists [EvOpen file_path true; EvClose file_path].
Qed.

End LoaderFacts.

(** ** Validation and the top level *)

Section MainFacts.

Variable json_loads : string -> exn + Document.
Variable yaml_safe_loads : string -> exn + Document.
Variable validate : Document -> Document -> option exn.
Variable fs : FileSystem.

Ltac unfold_main := unfold main, run.
Ltac unfold_pipeline := unfold pipeline.
Ltac unfold_validate_data := unfold validate_data.

Local Abbreviation load_data := (load_data json_loads yaml_safe_loads fs).
Local Abbreviation validate_data := (validate_data validate).
Local Abbreviation pipeline := (pipeline json_loads yaml_safe_loads validate fs).
Local Abbreviation run := (run json_loads yaml_safe_loads validate fs).
Local Abbreviation main := (main json_loads yaml_safe_loads validate fs).
Local Abbreviation parser_of := (parser_of json_loads yaml_safe_loads).

Lemma validate_data_eq (data schema : Document) :
  validate_data data schema =
    match validate data schema with
    | None => ([EvLog INFO "Data validation successful."], inr tt)
    | Some e => ([EvLog ERROR (validate_failure_message e)], inl e)
    end.
Proof.
  unfold_validate_data. unfold validate_failure_message.
  destruct (validate data schema) as [e|]; [|reflexivity].
  run_effects. rewrite (isinstance_Exception e).
  destruct (isinstance e ValidationError); [reflexivity|].
  destruct (isinstance e SchemaError); reflexivity.
Qed.

Lemma pipeline_data_fails (args : Argparse.Namespace) (t : trace) (e : exn) :
  load_data (Argparse.data_file args) (Argparse.data_type args) = (t, inl e) ->
  pipeline args = (t, inl e).
Proof. intro H. unfold_pipeline. unfold bind at 1. now rewrite H. Qed.

Lemma pipeline_schema_fails (args : Argparse.Namespace) (t1 t2 : trace)
    (data : Document) (e : exn) :
  load_data (Argparse.data_file args) (Argparse.data_type args) = (t1, inr data) ->
  load_data (Argparse.schema_file args) (Argparse.schema_type args) = (t2, inl e) ->
  pipeline args = (t1 ++ t2, inl e).
Proof.
  intros H1 H2. unfold_pipeline. unfold bind at 1. rewrite H1.
  unfold bind at 1. now rewrite H2.
Qed.

Lemma pipeline_loaded (args : Argparse.Namespace) (t1 t2 : trace) (data schema : Document) :
  load_data (Argparse.data_file args) (Argparse.data_type args) = (t1, inr data) ->
  load_data (Argparse.schema_file args) (Argparse.schema_type args) = (t2, inr schema) ->
  pipeline args =
    match validate data schema with
    | None =>
        (t1 ++ t2 ++ [EvLog INFO "Data validation successful.";
                      EvPrint "Validation successful!"], inr tt)
    | Some e => (t1 ++ t2 ++ [EvLog ERROR (validate_failure_message e)], inl e)
    end.
Proof.
  intros H1 H2. unfold_pipeline. unfold bind at 1. rewrite H1.
  unfold bind at 1. rewrite H2. rewrite validate_data_eq.
  destruct (validate data schema); reflexivity.
Qed.

(** Every exception of the model is caught by some clause of [main]. *)
Lemma main_except_total (e : exn) : exists h, main_except e = Some h.
Proof.
  unfold main_except. rewrite (isinstance_Exception e).
  repeat match goal with |- context [if ?b then _ else _] => destruct b end;
    eexists; reflexivity.
Qed.

Lemma main_success (argv : list string) (args : Argparse.Namespace) (lvl : level)
    (t : trace) (u : unit) :
  Argparse.parse_args argv = Argparse.Parsed args ->
  level_of_name (Argparse.log_level args) = Some lvl ->
  pipeline args = (t, inr u) ->
  main argv = mkOutcome (EvSetLevel lvl :: t) 0.
Proof. intros Hp Hl Hr. unfold_main. now rewrite Hp, Hl, Hr. Qed.

Lemma main_failure (argv : list string) (args : Argparse.Namespace) (lvl : level)
    (t : trace) (e : exn) (h : handler) :
  Argparse.parse_args argv = Argparse.Parsed args ->
  level_of_name (Argparse.log_level args) = Some lvl ->
  pipeline args = (t, inl e) ->
  main_except e = Some h ->
  main argv = mkOutcome (EvSetLevel lvl :: t ++ [EvPrint (handler_message h e)])
                        (handler_status h).
Proof. intros Hp Hl Hr He. unfold_main. now rewrite Hp, Hl, Hr, He. Qed.

(** A failing first load decides the run. *)
Lemma main_data_load_fails (argv : list string) (args : Argparse.Namespace)
    (t : trace) (e : exn) (h : handler) :
  Argparse.parse_args argv = Argparse.Parsed args ->
  load_data (Argparse.data_file args) (Argparse.data_type args) = (t, inl e) ->
  main_except e = Some h ->
  stdout t = [] ->
  stdout (effects (main argv)) = [handler_message h e] /\
  exit_code (main argv) = handler_status h /\
  opens (effects (main argv)) = opens t.
Proof.
  intros Hp Hd He Ht.
  destruct (ArgparseFacts.parsed_level _ _ Hp) as [lvl Hl].
  rewrite (main_failure _ _ _ _ _ _ Hp Hl (pipeline_data_fails _ _ _ Hd) He).
  unfold stdout, opens in *. simpl. rewrite !flat_map_app. simpl.
  rewrite Ht, app_nil_r. auto.
Qed.

(** *** Claims about a run whose two loads succeed *)

(** C1.  When both files load and the data conforms to the schema
    ([jsonschema.validate] returns normally), the run makes an info-level
    logging call announcing the successful validation (which reaches the
    log stream whenever the configured level is DEBUG or INFO), prints
    [Validation successful!] as its only line on stdout, and exits with
    status 0. *)
Theorem conforming_data_succeeds (argv : list string) (args : Argparse.Namespace)
    (t1 t2 : trace) (data schema : Document) :
  Argparse.parse_args argv = Argparse.Parsed args ->
  load_data (Argparse.data_file args) (Argparse.data_type args) = (t1, inr data) ->
  load_data (Argparse.schema_file args) (Argparse.schema_type args) = (t2, inr schema) ->
  validate data schema = None ->
  In (INFO, "Data validation successful.") (log_calls (effects (main argv))) /\
  (forall lvl, level_of_name (Argparse.log_level args) = Some lvl ->
               (levelno lvl <= levelno INFO)%Z ->
               In (INFO, "Data validation successful.") (log_output (effects (main argv)))) /\
  stdout (effects (main argv)) = ["Validation successful!"] /\
  exit_code (main argv) = 0%Z.
Proof.
  intros Hp H1 H2 Hv.
  destruct (ArgparseFacts.parsed_level _ _ Hp) as [lvl Hl].
  pose proof (pipeline_loaded _ _ _ _ _ H1 H2) as Hr. rewrite Hv in Hr.
  rewrite (main_success _ _ _ _ _ Hp Hl Hr).
  apply load_data_ok_trace in H1, H2. destruct H1 as [_ ->], H2 as [_ ->].
  split; [simpl; auto|]. split.
  - intros lvl' Hl' Hle. rewrite Hl in Hl'. injection Hl' as <-.
    unfold log_output. simpl.
    apply Z.leb_le in Hle. simpl in Hle. rewrite Hle. now left.
  - split; reflexivity.
Qed.


(** C6, as the code has it.  When both files load and
    [jsonschema.validate] rejects the schema document with a [SchemaError],
    [validate_data] makes an error-level logging call of its own (emitted
    unless the level is CRITICAL), and the run is reported by the clause
    for [SchemaError]: one [print] call starting [Schema Error: ], never
    the report or the record of a data violation, and exit status 1.  A
    schema document that makes [jsonschema.validate] fail with a
    [TypeError] instead (a null or a number, on which the search for
    [$schema] fails before the schema is checked) is logged and reported
    as an unexpected error, again with exit status 1. *)
Theorem invalid_schema_reported (argv : list string) (args : Argparse.Namespace)
    (t1 t2 : trace) (data schema : Document) (e : exn) :
  Argparse.parse_args argv = Argparse.Parsed args ->
  load_data (Argparse.data_file args) (Argparse.data_type args) = (t1, inr data) ->
  load_data (Argparse.schema_file args) (Argparse.schema_type args) = (t2, inr schema) ->
  validate data schema = Some e ->
  (isinstance e SchemaError = true ->
     main_except e = Some HSchemaError /\
     In (ERROR, ("Schema validation failed: " ++ exn_str e)%string)
        (log_calls (effects (main argv))) /\
     (forall lvl, level_of_name (Argparse.log_level args) = Some lvl ->
                  (levelno lvl <= levelno ERROR)%Z ->
                  In (ERROR, ("Schema validation failed: " ++ exn_str e)%string)
                     (log_output (effects (main argv)))) /\
     stdout (effects (main argv)) = [("Schema Error: " ++ exn_str e)%string] /\
     stdout (effects (main argv)) <> [("Validation Error: " ++ exn_str e)%string] /\
     (forall m, stdout (effects (main argv)) <> [("Validation Error: " ++ m)%string]) /\
     (forall m, ~ In (ERROR, ("Data validation failed: " ++ m)%string)
                     (log_calls (effects (main argv)))) /\
     exit_code (main argv) = 1%Z) /\
  (isinstance e TypeError = true ->
     main_except e = Some HException /\
     log_calls (effects (main argv))
       = [(ERROR, ("An unexpected error occurred during validation: " ++ exn_str e)%string)] /\
     stdout (effects (main argv))
       = [("An unexpected error occurred: " ++ exn_str e)%string] /\
     (forall m, stdout (effects (main argv)) <> [("Schema Error: " ++ m)%string]) /\
     exit_code (main argv) = 1%Z).
Proof.
  intros Hp H1 H2 Hv.
  destruct (ArgparseFacts.parsed_level _ _ Hp) as [lvl Hl].
  pose proof (pipeline_loaded _ _ _ _ _ H1 H2) as Hr. rewrite Hv in Hr.
  apply load_data_ok_trace in H1, H2. destruct H1 as [_ ->], H2 as [_ ->].
  split; intro He.
  - assert (Hh : main_except e = Some HSchemaError).
    { destruct e as [c m]; destruct c; try discriminate He; reflexivity. }
    assert (Hn : isinstance e ValidationError = false).
    { destruct e as [c m]; destruct c; try discriminate He; reflexivity. }
    rewrite (main_failure _ _ _ _ _ _ Hp Hl Hr Hh).
    unfold validate_failure_message. rewrite Hn, He.
    split; [exact Hh|]. split; [simpl; auto|]. split.
    + intros lvl' Hl' Hle. rewrite Hl in Hl'. injection Hl' as <-.
      unfold log_output. simpl.
      apply Z.leb_le in Hle. simpl in Hle. rewrite Hle. now left.
    + split; [reflexivity|]. split; [simpl; discriminate|].
      split; [intro m; simpl; discriminate|].
      split; [|reflexivity].
      intros m [E|[]]; discriminate E.
  - assert (Hh : main_except e = Some HException).
    { destruct e as [c m]; destruct c; try discriminate He; reflexivity. }
    assert (Hn : isinstance e ValidationError = false).
    { destruct e as [c m]; destruct c; try discriminate He; reflexivity. }
    assert (Hs : isinstance e SchemaError = false).
    { destruct e as [c m]; destruct c; try discriminate He; reflexivity. }
    rewrite (main_failure _ _ _ _ _ _ Hp Hl Hr Hh).
    unfold validate_failure_message. rewrite Hn, Hs.
    split; [exact Hh|]. split; [reflexivity|]. split; [reflexivity|].
    split; [intro m; simpl; discriminate | reflexivity].
Qed.

(** *** Claims about a load that fails *)

(** C4.  A path that does not exist makes [load_data] raise
    [FileNotFoundError] whatever type is requested, before any call of
    [open]; the run that meets such a path (as its data file, or as its
    schema file once the data file has loaded) never opens it, prints
    [Error: File not found: <path>] and exits with status 1. *)
Theorem missing_path_not_found (argv : list string) (args : Argparse.Namespace)
    (p : string) (ty : option string) :
  path_exists fs p = false ->
  Argparse.parse_args argv = Argparse.Parsed args ->
  Argparse.data_file args = p \/
  (Argparse.schema_file args = p /\
   exists t1 d, load_data (Argparse.data_file args) (Argparse.data_type args) = (t1, inr d)) ->
  load_data p ty = ([], inl (mkExn FileNotFoundError ("File not found: " ++ p))) /\
  stdout (effects (main argv)) = [("Error: File not found: " ++ p)%string] /\
  exit_code (main argv) = 1%Z /\
  (forall opened, ~ In (p, opened) (opens (effects (main argv)))).
Proof.
  intros Hex Hp Hwhich.
  split; [now apply load_data_missing|].
  destruct Hwhich as [<- | [<- (t1 & d & H1)]].
  - pose proof (load_data_missing json_loads yaml_safe_loads fs _
                  (Argparse.data_type args) Hex) as Hd.
    destruct (main_data_load_fails argv args [] _ HFileNotFound Hp Hd eq_refl eq_refl)
      as (Hout & Hcode & Hopens).
    rewrite Hout, Hcode, Hopens. repeat split. intros opened [].
  - destruct (ArgparseFacts.parsed_level _ _ Hp) as [lvl Hl].
    pose proof (load_data_missing json_loads yaml_safe_loads fs _
                  (Argparse.schema_type args) Hex) as Hs.
    rewrite (main_failure _ _ _ _ _ HFileNotFound Hp Hl
               (pipeline_schema_fails _ _ _ _ _ H1 Hs) eq_refl).
    apply load_data_ok_trace in H1. destruct H1 as [Hd ->].
    repeat split. simpl. intros opened [[= E _]|[]].
    rewrite E in Hd. congruence.
Qed.

(** C5, as the code has it.  When the parser of the file's format raises
    on the text of the file, [load_data] closes the file, makes one
    error-level logging call and re-raises the parser's exception, and the
    run exits with status 1.  For the parser's own syntax error
    ([json.JSONDecodeError], [yaml.YAMLError]) the record is the format's
    decoding record, carrying the parser's message; at the top level a
    [JSONDecodeError], being a [ValueError], is printed as [Error: ...],
    and a [YAMLError] is caught by the last clause and printed as
    [An unexpected error occurred: ...].  A [RecursionError] of the
    parser (text nested too deeply) gets the record of the generic clause
    and is printed as [An unexpected error occurred: ...] for either
    format. *)
Theorem malformed_content_reported (argv : list string) (args : Argparse.Namespace)
    (p : string) (ty : option string) (text : string) (fmt : format) (e : exn) :
  Argparse.parse_args argv = Argparse.Parsed args ->
  Argparse.data_file args = p ->
  Argparse.data_type args = ty ->
  path_exists fs p = true ->
  fs_open fs p = inr (inr text) ->
  format_of (resolve_type p ty) = Some fmt ->
  parser_of fmt text = inl e ->
  load_data p ty =
    ([EvOpen p true; EvClose p; EvLog ERROR (load_failure_message p e)], inl e) /\
  exit_code (main argv) = 1%Z /\
  (isinstance e (decode_error fmt) = true ->
     load_data p ty =
       ([EvOpen p true; EvClose p; EvLog ERROR (decode_log fmt p e)], inl e) /\
     main_except e = Some (match fmt with JSON => HValueError | YAML => HException end) /\
     stdout (effects (main argv)) = [decode_report fmt e]) /\
  (isinstance e RecursionError = true ->
     load_failure_message p e = ("Error loading data from " ++ p ++ ": " ++ exn_str e)%string /\
     main_except e = Some HException /\
     stdout (effects (main argv)) = [("An unexpected error occurred: " ++ exn_str e)%string]).
Proof.
  intros Hp <- <- Hex Hopen Hfmt Hparse.
  assert (Hd : load_data (Argparse.data_file args) (Argparse.data_type args) =
               ([EvOpen (Argparse.data_file args) true; EvClose (Argparse.data_file args);
                 EvLog ERROR (load_failure_message (Argparse.data_file args) e)], inl e)).
  { rewrite (load_data_existing _ _ _ _ _ Hex), Hopen.
    unfold read_document. rewrite Hfmt.
    destruct fmt; simpl in Hparse; rewrite Hparse; reflexivity. }
  destruct (main_except_total e) as [h Hh].
  destruct (main_data_load_fails argv args _ _ _ Hp Hd Hh eq_refl) as (Hout & Hcode & _).
  split; [exact Hd|]. split; [rewrite Hcode; now destruct h|]. split; intro He.
  - assert (Hmsg : load_failure_message (Argparse.data_file args) e
                   = decode_log fmt (Argparse.data_file args) e).
    { unfold load_failure_message.
      destruct fmt, e as [c m]; destruct c; try discriminate He; reflexivity. }
    assert (Hh' : main_except e
                  = Some (match fmt with JSON => HValueError | YAML => HException end)).
    { destruct fmt, e as [c m]; destruct c; try discriminate He; reflexivity. }
    rewrite <- Hmsg. split; [exact Hd|]. split; [exact Hh'|].
    rewrite Hout. rewrite Hh' in Hh. injection Hh as <-. now destruct fmt.
  - assert (Hh' : main_except e = Some HException).
    { destruct e as [c m]; destruct c; try discriminate He; reflexivity. }
    split.
    + unfold load_failure_message.
      destruct e as [c m]; destruct c; try discriminate He; reflexivity.
    + split; [exact Hh'|]. rewrite Hout. rewrite Hh' in Hh. now injection Hh as <-.
Qed.

(** C9, as the code has it.  When [open] or the read of an existing file
    fails with an [OSError] other than [FileNotFoundError], [load_data]
    re-raises that very exception after the record of its generic clause,
    and [main] catches it in its last clause: the run prints
    [An unexpected error occurred: ...] and exits with status 1. *)
Theorem io_failure_reported_as_unexpected (argv : list string)
    (args : Argparse.Namespace) (p : string) (ty : option string) (e : exn) :
  Argparse.parse_args argv = Argparse.Parsed args ->
  Argparse.data_file args = p ->
  Argparse.data_type args = ty ->
  path_exists fs p = true ->
  fs_open fs p = inl e \/
  (fs_open fs p = inr (inl e) /\ format_of (resolve_type p ty) <> None) ->
  isinstance e OSError = true ->
  isinstance e FileNotFoundError = false ->
  snd (load_data p ty) = inl e /\
  (exists t0, fst (load_data p ty) =
              t0 ++ [EvLog ERROR ("Error loading data from " ++ p ++ ": " ++ exn_str e)]) /\
  main_except e = Some HException /\
  stdout (effects (main argv)) = [("An unexpected error occurred: " ++ exn_str e)%string] /\
  exit_code (main argv) = 1%Z.
Proof.
  intros Hp <- <- Hex Hfail Hos Hnf.
  set (p := Argparse.data_file args) in *. set (ty := Argparse.data_type args) in *.
  assert (Hmsg : load_failure_message p e
                 = ("Error loading data from " ++ p ++ ": " ++ exn_str e)%string).
  { unfold load_failure_message.
    destruct e as [c m]; destruct c; try discriminate Hos; try discriminate Hnf; reflexivity. }
  assert (Hh : main_except e = Some HException).
  { destruct e as [c m]; destruct c; try discriminate Hos; try discriminate Hnf; reflexivity. }
  assert (Hd : exists t0, load_data p ty = (t0 ++ [EvLog ERROR (load_failure_message p e)], inl e)
                          /\ stdout (t0 ++ [EvLog ERROR (load_failure_message p e)]) = []).
  { rewrite (load_data_existing _ _ _ _ _ Hex).
    destruct Hfail as [-> | [-> Hfmt]].
    - exists [EvOpen p false]. split; reflexivity.
    - exists [EvOpen p true; EvClose p]. unfold read_document.
      destruct (format_of (resolve_type p ty)) as [[|]|]; [| |congruence]; split; reflexivity. }
  destruct Hd as (t0 & Hd & Hquiet).
  destruct (main_data_load_fails argv args _ _ _ Hp Hd Hh Hquiet) as (Hout & Hcode & _).
  rewrite Hd, Hout, Hcode, <- Hmsg. simpl. repeat split; eauto.
Qed.

(** *** Claims about type resolution *)

Lemma infer_type_ext (stem ext : string) :
  PyStr.contains_char "."%char ext = false ->
  infer_type (stem ++ "." ++ ext) = PyStr.lower ext.
Proof.
  intro H. unfold infer_type.
  change (stem ++ "." ++ ext)%string with (stem ++ String "."%char ext)%string.
  now rewrite PyStrFacts.last_split_ext.
Qed.

Lemma infer_type_no_dot (p : string) :
  PyStr.contains_char "."%char p = false -> infer_type p = PyStr.lower p.
Proof. intro H. unfold infer_type. now rewrite (PyStrFacts.split_no_sep _ _ H). Qed.

Lemma format_of_None (t : string) :
  t <> "json" -> t <> "yaml" -> t <> "yml" -> format_of t = None.
Proof.
  intros H1 H2 H3. unfold format_of.
  apply String.eqb_neq in H1, H2, H3. now rewrite H1, H2, H3.
Qed.

(** C3.  An explicit type is the resolved type whatever the path looks
    like; without one the resolved type is the extension (the text after
    the last dot) in lower case, so that extensions differing only in case
    resolve alike; [json] selects the JSON parser, [yaml] and [yml] both
    select the YAML parser; and [load_data] on a file it can open returns
    what the parser selected by the resolved type returns
    ([read_document]). *)
Theorem type_resolution (p t stem ext q : string) (tyq : option string) (f : file) :
  PyStr.contains_char "."%char ext = false ->
  path_exists fs q = true ->
  fs_open fs q = inr f ->
  resolve_type p (Some t) = t /\
  resolve_type (stem ++ "." ++ ext) None = PyStr.lower ext /\
  format_of "json" = Some JSON /\
  format_of "yaml" = Some YAML /\
  format_of "yml" = Some YAML /\
  snd (load_data q tyq) =
    read_document json_loads yaml_safe_loads (resolve_type q tyq) f.
Proof.
  intros Hext Hex Hopen.
  split; [reflexivity|]. split; [now apply infer_type_ext|].
  do 3 (split; [reflexivity|]).
  rewrite (load_data_existing _ _ _ _ _ Hex), Hopen.
  now destruct (read_document _ _ _ f).
Qed.

(** C10, as the code has it.  Without an explicit type the resolved type
    is the lower-cased text after the last dot of the whole path; for a
    path with no dot at all it is the whole path in lower case, which is
    the lower-cased file name when the path has no directory part.  When
    the resolved type is none of [json], [yaml], [yml] and the file can be
    opened, [load_data] opens the file, closes it and only then fails with
    the [ValueError] for an unsupported type. *)
Theorem inferred_type_is_text_after_last_dot (stem ext whole plain p : string)
    (ty : option string) (f : file) :
  PyStr.contains_char "."%char ext = false ->
  PyStr.contains_char "."%char whole = false ->
  PyStr.contains_char "."%char plain = false ->
  PyStr.contains_char "/"%char plain = false ->
  path_exists fs p = true ->
  fs_open fs p = inr f ->
  resolve_type p ty <> "json" ->
  resolve_type p ty <> "yaml" ->
  resolve_type p ty <> "yml" ->
  resolve_type (stem ++ "." ++ ext) None = PyStr.lower ext /\
  resolve_type whole None = PyStr.lower whole /\
  resolve_type plain None = PyStr.lower (PyStr.basename plain) /\
  load_data p ty =
    ([EvOpen p true; EvClose p;
      EvLog ERROR ("Error loading data from " ++ p ++ ": Unsupported file type: "
                   ++ resolve_type p ty ++ ".  Must be json or yaml/yml.")],
     inl (mkExn ValueError ("Unsupported file type: " ++ resolve_type p ty
                            ++ ".  Must be json or yaml/yml."))).
Proof.
  intros Hext Hwhole Hplain Hslash Hex Hopen H1 H2 H3.
  split; [now apply infer_type_ext|].
  split; [now apply infer_type_no_dot|].
  split.
  - unfold PyStr.basename. rewrite (PyStrFacts.split_no_sep _ _ Hslash).
    now apply infer_type_no_dot.
  - rewrite (load_data_existing _ _ _ _ _ Hex), Hopen.
    unfold read_document. now rewrite (format_of_None _ H1 H2 H3).
Qed.

(** *** Exit status *)

Lemma classify_plain (t : string) : plain_word t = true -> Argparse.classify t = Argparse.TArg.
Proof.
  destruct t as [|a t]; [reflexivity|].
  unfold plain_word, PyStr.startswith. simpl.
  destruct (ascii_dec "-" a) as [<-|Hne].
  - destruct t; discriminate.
  - intros _. destruct a as [[] [] [] [] [] [] [] []]; try reflexivity.
    now elim Hne.
Qed.

Lemma plain_not_dashes (t : string) : plain_word t = true -> (t =? "--") = false.
Proof.
  destruct t as [|a t]; [reflexivity|].
  unfold plain_word, PyStr.startswith. simpl.
  destruct (ascii_dec "-" a) as [<-|Hne].
  - destruct t; discriminate.
  - intros _. destruct (Ascii.eqb_spec a "-") as [->|_]; [now elim Hne | reflexivity].
Qed.

Definition as_arg (t : string) : string * Argparse.pat := (t, Argparse.PA).

(** The first pass leaves plain words as arguments. *)
Lemma pattern_plain_app (ws rest : list string) :
  forallb plain_word ws = true ->
  Argparse.arg_strings_pattern (ws ++ rest) false =
    option_map (app (map as_arg ws)) (Argparse.arg_strings_pattern rest false).
Proof.
  induction ws as [|t ws IH]; intro Hall; simpl.
  - now destruct (Argparse.arg_strings_pattern rest false).
  - simpl in Hall. apply andb_true_iff in Hall. destruct Hall as [Ht Hws].
    rewrite (plain_not_dashes _ Ht), (classify_plain _ Ht), (IH Hws).
    now destruct (Argparse.arg_strings_pattern rest false).
Qed.

Lemma pattern_plain (ws : list string) :
  forallb plain_word ws = true ->
  Argparse.arg_strings_pattern ws false = Some (map as_arg ws).
Proof.
  intro H. rewrite <- (app_nil_r ws) at 1. rewrite (pattern_plain_app _ _ H).
  simpl. now rewrite app_nil_r.
Qed.

Lemma no_option_among_args (ws : list string) :
  existsb Argparse.is_option (map as_arg ws) = false.
Proof. induction ws; simpl; auto. Qed.

(** Plain words before an option fill the positionals that are left. *)
Lemma consume_args_before_option (ws : list string) (rest : list (string * Argparse.pat)) :
  existsb Argparse.is_option rest = true ->
  forall s, Argparse.consume (map as_arg ws ++ rest) s =
            Argparse.consume rest
              (fold_left (fun st t => Argparse.take_positional t st) ws s).
Proof.
  intro Hopt. induction ws as [|t ws IH]; intro s; simpl; [reflexivity|].
  rewrite existsb_app, Hopt, orb_true_r. apply IH.
Qed.

(** Plain words alone go to the positionals in one match. *)
Lemma consume_args_only (ws : list string) (s : Argparse.pstate) :
  Argparse.consume (map as_arg ws) s = Argparse.consume_tail (map as_arg ws) s.
Proof.
  destruct ws as [|t ws]; simpl; [reflexivity|]. now rewrite no_option_among_args.
Qed.

Lemma plain_only_exit (ws : list string) :
  forallb plain_word ws = true ->
  length ws <> 2 ->
  exists msg, Argparse.parse_args ws = Argparse.usage_error msg.
Proof.
  intros Hplain Hlen. unfold Argparse.parse_args.
  rewrite (pattern_plain _ Hplain), consume_args_only.
  destruct ws as [|a [|b [|c l]]]; try (now elim Hlen).
  - eexists; reflexivity.
  - eexists; reflexivity.
  - unfold Argparse.consume_tail, Argparse.finish. simpl. eexists; reflexivity.
Qed.

(** A help flag after plain words. *)
Lemma help_after_plain (ws ws' : list string) (h : string) :
  forallb plain_word ws = true ->
  forallb plain_word ws' = true ->
  h = "-h" \/ h = "--help" ->
  Argparse.parse_args (ws ++ h :: ws') = Argparse.help_exit.
Proof.
  intros Hws Hws' Hh. unfold Argparse.parse_args.
  rewrite (pattern_plain_app _ _ Hws).
  assert (Hpat : Argparse.arg_strings_pattern (h :: ws') false =
                 Some ((h, Argparse.PO (Argparse.TOpt Argparse.AHelp None))
                       :: map as_arg ws')).
  { destruct Hh as [-> | ->]; simpl; now rewrite (pattern_plain _ Hws'). }
  rewrite Hpat. unfold option_map. cbv beta iota.
  rewrite consume_args_before_option by reflexivity. reflexivity.
Qed.

(** A registered valued option and the action it stores into. *)
Lemma exact_long_cases (opt : string) (a : Argparse.action) :
  Argparse.exact_long opt = Some a ->
  (opt = "--help" /\ a = Argparse.AHelp) \/
  (opt = "--data_type" /\ a = Argparse.ADataType) \/
  (opt = "--schema_type" /\ a = Argparse.ASchemaType) \/
  (opt = "--log_level" /\ a = Argparse.ALogLevel).
Proof.
  unfold Argparse.exact_long, Argparse.long_options, Argparse.setup_argparse.
  cbn [Argparse.optional_args find fst snd].
  destruct (String.eqb_spec "--help" opt) as [<-|_]; [intros [= <-]; auto|].
  destruct (String.eqb_spec "--data_type" opt) as [<-|_]; [intros [= <-]; auto|].
  destruct (String.eqb_spec "--schema_type" opt) as [<-|_]; [intros [= <-]; auto|].
  destruct (String.eqb_spec "--log_level" opt) as [<-|_]; [intros [= <-]; auto 6|].
  discriminate.
Qed.


(** Plain words, then a valued option with a value outside its choices,
    the value given as the next word or after an equals sign; whatever
    follows, the parser exits. *)
Lemma invalid_choice_anywhere (ws rest : list string) (opt v : string) (a : Argparse.action) :
  forallb plain_word ws = true ->
  Argparse.exact_long opt = Some a ->
  a <> Argparse.AHelp ->
  Argparse.in_choices a v = false ->
  (plain_word v = true ->
   exists msg, Argparse.parse_args (ws ++ opt :: v :: rest) = Argparse.usage_error msg) /\
  (v <> "--" ->
   exists msg, Argparse.parse_args (ws ++ (opt ++ "=" ++ v)%string :: rest)
               = Argparse.usage_error msg).
Proof.
  intros Hws Hopt Ha Hc. split; intro Hv; unfold Argparse.parse_args;
    rewrite (pattern_plain_app _ _ Hws).
  - assert (Hpat : Argparse.arg_strings_pattern (opt :: v :: rest) false =
                   option_map (fun pats => (opt, Argparse.PO (Argparse.TOpt a None))
                                             :: as_arg v :: pats)
                              (Argparse.arg_strings_pattern rest false)).
    { destruct (exact_long_cases _ _ Hopt) as [[-> ->]|[[-> ->]|[[-> ->]|[-> ->]]]];
        simpl; rewrite (plain_not_dashes _ Hv), (classify_plain _ Hv);
        now destruct (Argparse.arg_strings_pattern rest false). }
    rewrite Hpat. destruct (Argparse.arg_strings_pattern rest false) as [pats|];
      [|eexists; reflexivity].
    unfold option_map. cbv beta iota.
    rewrite consume_args_before_option by reflexivity.
    simpl. unfold Argparse.store. simpl. rewrite Hc.
    destruct a; try (eexists; reflexivity). now elim Ha.
  - assert (Hpat : Argparse.arg_strings_pattern ((opt ++ "=" ++ v)%string :: rest) false =
                   option_map (fun pats => ((opt ++ "=" ++ v)%string,
                                            Argparse.PO (Argparse.TOpt a (Some v))) :: pats)
                              (Argparse.arg_strings_pattern rest false)).
    { destruct (exact_long_cases _ _ Hopt) as [[-> ->]|[[-> ->]|[[-> ->]|[-> ->]]]];
        simpl; now destruct (Argparse.arg_strings_pattern rest false). }
    rewrite Hpat. destruct (Argparse.arg_strings_pattern rest false) as [pats|];
      [|eexists; reflexivity].
    unfold option_map. cbv beta iota.
    rewrite consume_args_before_option by reflexivity.
    assert (Hx : Argparse.explicit_value v = Argparse.VStr v).
    { unfold Argparse.explicit_value.
      destruct (String.eqb_spec v "--") as [E|_]; [now elim Hv | reflexivity]. }
    destruct a; [now elim Ha| | |];
      cbn [Argparse.consume]; rewrite Hx; unfold Argparse.store;
      cbn [Argparse.value_allowed]; rewrite Hc; eexists; reflexivity.
Qed.

(** A namespace that holds an empty list never gets through the pipeline. *)
Lemma load_data_unsupported_fails (p t : string) :
  format_of t = None ->
  exists tr e, load_data p (Some t) = (tr, inl e).
Proof.
  intro Hf. destruct (path_exists fs p) eqn:Hex.
  - rewrite (load_data_existing _ _ _ _ _ Hex).
    destruct (fs_open fs p) as [e|f]; [eauto|].
    unfold read_document. simpl resolve_type. rewrite Hf. eauto.
  - rewrite (load_data_missing _ _ _ _ _ Hex). eauto.
Qed.

Lemma load_data_value_fails (v : Argparse.value) (ty : option Argparse.value) :
  v = Argparse.VEmptyList \/ ty = Some Argparse.VEmptyList ->
  exists tr e, load_data_value json_loads yaml_safe_loads fs v ty = (tr, inl e).
Proof.
  unfold load_data_value. intros [-> | ->].
  - unfold raise. eauto.
  - destruct v as [p|]; [now apply load_data_unsupported_fails | unfold raise; eauto].
Qed.

Lemma pipeline_raw_fails (raw : Argparse.RawNamespace) :
  Argparse.raw_data_file raw = Argparse.VEmptyList \/
  Argparse.raw_schema_file raw = Argparse.VEmptyList \/
  Argparse.raw_data_type raw = Some Argparse.VEmptyList \/
  Argparse.raw_schema_type raw = Some Argparse.VEmptyList ->
  exists tr e, pipeline_raw json_loads yaml_safe_loads validate fs raw = (tr, inl e).
Proof.
  intro H. unfold pipeline_raw.
  destruct (load_data_value json_loads yaml_safe_loads fs
              (Argparse.raw_data_file raw) (Argparse.raw_data_type raw))
    as [t1 [e|data]] eqn:H1.
  { exists t1, e. reflexivity. }
  destruct (load_data_value json_loads yaml_safe_loads fs
              (Argparse.raw_schema_file raw) (Argparse.raw_schema_type raw))
    as [t2 [e|schema]] eqn:H2.
  { exists (t1 ++ t2), e. reflexivity. }
  exfalso.
  assert (Hd : Argparse.raw_data_file raw = Argparse.VEmptyList \/
               Argparse.raw_data_type raw = Some Argparse.VEmptyList ->  False).
  { intro Hl. destruct (load_data_value_fails _ _ Hl) as (tr & e & E).
    rewrite E in H1. discriminate. }
  assert (Hs : Argparse.raw_schema_file raw = Argparse.VEmptyList \/
               Argparse.raw_schema_type raw = Some Argparse.VEmptyList ->  False).
  { intro Hl. destruct (load_data_value_fails _ _ Hl) as (tr & e & E).
    rewrite E in H2. discriminate. }
  tauto.
Qed.

(** Such a namespace always ends the run with status 1. *)
Lemma run_raw_exit (raw : Argparse.RawNamespace) :
  ArgparseFacts.raw_has_list raw ->
  ArgparseFacts.level_value_ok (Argparse.raw_log_level raw) ->
  exit_code (run_raw json_loads yaml_safe_loads validate fs raw) = 1%Z.
Proof.
  intros Hlist Hlvl. unfold run_raw, set_level.
  destruct (Argparse.raw_log_level raw) as [name|] eqn:El; [|reflexivity].
  destruct (ArgparseFacts.choice_is_level _ Hlvl) as [lvl ->].
  destruct (pipeline_raw_fails raw) as (tr & e & ->).
  { unfold ArgparseFacts.raw_has_list in Hlist. rewrite El in Hlist.
    intuition discriminate. }
  destruct (main_except_total e) as [h ->]. now destruct h.
Qed.

(** C8, as the code has it.  Once the arguments parse, the exit status is 0
    when the pipeline completes and 1 when it raises (1 as well when a
    value of the namespace is an empty list); when argparse ends the
    process itself the status is argparse's, 0 or 2.  Misuse gets 2: a
    command line of plain words that are not exactly the two paths, and,
    after any plain words, a valued option given a value outside its
    choices (as the next word or after an equals sign, whatever follows).
    A help flag among plain words gets 0. *)
Theorem exit_status_of_main (argv : list string) :
  match Argparse.parse_args argv with
  | Argparse.Parsed args =>
      match snd (pipeline args) with
      | inr _ => exit_code (main argv) = 0%Z
      | inl _ => exit_code (main argv) = 1%Z
      end
  | Argparse.ParsedRaw _ => exit_code (main argv) = 1%Z
  | Argparse.SystemExit status _ =>
      exit_code (main argv) = status /\ (status = 0%Z \/ status = 2%Z)
  end /\
  (forallb plain_word argv = true -> length argv <> 2 -> exit_code (main argv) = 2%Z) /\
  (forall ws opt v rest a,
     forallb plain_word ws = true ->
     Argparse.exact_long opt = Some a -> a <> Argparse.AHelp ->
     Argparse.in_choices a v = false ->
     (argv = ws ++ opt :: v :: rest /\ plain_word v = true) \/
     (argv = ws ++ (opt ++ "=" ++ v)%string :: rest /\ v <> "--") ->
     exit_code (main argv) = 2%Z) /\
  (forall ws h ws',
     argv = ws ++ h :: ws' ->
     forallb plain_word ws = true -> forallb plain_word ws' = true ->
     h = "-h" \/ h = "--help" ->
     exit_code (main argv) = 0%Z).
Proof.
  split; [|split; [|split]].
  - pose proof (ArgparseFacts.parse_args_ok argv) as Hok. unfold_main.
    destruct (Argparse.parse_args argv) as [args|raw|status text]; simpl in *.
    + destruct (ArgparseFacts.choice_is_level _ Hok) as [lvl ->].
      destruct (pipeline args) as [t [e|u]]; simpl; [|reflexivity].
      destruct (main_except_total e) as [h ->]. now destruct h.
    + destruct Hok as [Hlist Hlvl]. now apply run_raw_exit.
    + auto.
  - intros Hplain Hlen. unfold_main.
    destruct (plain_only_exit _ Hplain Hlen) as [msg ->]. reflexivity.
  - intros ws opt v rest a Hws Hopt Ha Hc Hargv. unfold_main.
    destruct (invalid_choice_anywhere ws rest opt v a Hws Hopt Ha Hc) as [Hword Hequals].
    destruct Hargv as [[-> Hv] | [-> Hv]].
    + destruct (Hword Hv) as [msg ->]. reflexivity.
    + destruct (Hequals Hv) as [msg ->]. reflexivity.
  - intros ws h ws' -> Hws Hws' Hh. unfold_main.
    now rewrite (help_after_plain _ _ _ Hws Hws' Hh).
Qed.

(** *** Logging on the failure paths of the loader *)

(** C7 fails on the code for the not-found path: the existence test of
    lines 40-41 raises outside the [try], so [load_data] on a path that
    does not exist makes no logging call at all before the
    [FileNotFoundError] reaches the caller (every other failure path does
    log first, see [load_data_failure_logged]), and a run stopped by such a
    path leaves the log stream empty. *)
Theorem not_found_raised_without_log (argv : list string) (args : Argparse.Namespace)
    (p : string) (ty : option string) :
  path_exists fs p = false ->
  Argparse.parse_args argv = Argparse.Parsed args ->
  Argparse.data_file args = p ->
  snd (load_data p ty) = inl (mkExn FileNotFoundError ("File not found: " ++ p)) /\
  log_calls (fst (load_data p ty)) = [] /\
  log_calls (effects (main argv)) = [] /\
  log_output (effects (main argv)) = [].
Proof.
  intros Hex Hp <-.
  rewrite (load_data_missing _ _ _ _ ty Hex).
  split; [reflexivity|]. split; [reflexivity|].
  destruct (ArgparseFacts.parsed_level _ _ Hp) as [lvl Hl].
  pose proof (load_data_missing json_loads yaml_safe_loads fs _
                (Argparse.data_type args) Hex) as Hd.
  rewrite (main_failure _ _ _ _ _ HFileNotFound Hp Hl (pipeline_data_fails _ _ _ Hd) eq_refl).
  split; reflexivity.
Qed.

End MainFacts.

(** The data and schema of the usage notes: exit status 0. *)
Lemma conforming_data_succeeds_witness :
  Argparse.parse_args ["data.json"; "schema.YML"]
    = Argparse.Parsed (Runs.default_args "data.json" "schema.YML") /\
  World.validate World.person World.schema = None /\
  stdout (effects (World.main ["data.json"; "schema.YML"])) = ["Validation successful!"] /\
  exit_code (World.main ["data.json"; "schema.YML"]) = 0%Z.
Proof.
  split; [reflexivity|]. split; [reflexivity|].
  refine (proj2 (proj2
    (conforming_data_succeeds World.json_loads World.yaml_safe_loads World.validate World.fs
       ["data.json"; "schema.YML"] (Runs.default_args "data.json" "schema.YML")
       [EvOpen "data.json" true; EvClose "data.json"]
       [EvOpen "schema.YML" true; EvClose "schema.YML"]
       World.person World.schema _ _ _ _))); reflexivity.
Defined.


(** A schema whose [type] is not a type name, and an empty schema file. *)
Lemma invalid_schema_reported_witness :
  World.validate World.person World.bad_schema = Some Runs.schema_error /\
  log_output (effects (World.main ["data.json"; "bad_schema.json"]))
    = [(ERROR, ("Schema validation failed: " ++ exn_str Runs.schema_error)%string)] /\
  stdout (effects (World.main ["data.json"; "bad_schema.json"]))
    = [("Schema Error: " ++ exn_str Runs.schema_error)%string] /\
  PyStr.startswith (exn_str Runs.schema_error)
    "'not-a-type' is not valid under any of the given schemas" = true /\
  exit_code (World.main ["data.json"; "bad_schema.json"]) = 1%Z /\
  World.validate World.person DNull = Some (World.not_iterable "NoneType") /\
  stdout (effects (Edge.main ["data.json"; "empty.yaml"]))
    = ["An unexpected error occurred: argument of type 'NoneType' is not iterable"] /\
  exit_code (Edge.main ["data.json"; "empty.yaml"]) = 1%Z.
Proof.
  destruct
    (invalid_schema_reported World.json_loads World.yaml_safe_loads World.validate
       World.fs ["data.json"; "bad_schema.json"]
       (Runs.default_args "data.json" "bad_schema.json")
       [EvOpen "data.json" true; EvClose "data.json"]
       [EvOpen "bad_schema.json" true; EvClose "bad_schema.json"]
       World.person World.bad_schema Runs.schema_error
       eq_refl eq_refl eq_refl eq_refl) as [Hschema _].
  destruct (Hschema eq_refl) as (_ & _ & _ & Hout & _ & _ & _ & Hcode).
  destruct
    (invalid_schema_reported World.json_loads World.yaml_safe_loads World.validate
       Edge.fs ["data.json"; "empty.yaml"]
       (Runs.default_args "data.json" "empty.yaml")
       [EvOpen "data.json" true; EvClose "data.json"]
       [EvOpen "empty.yaml" true; EvClose "empty.yaml"]
       World.person DNull (World.not_iterable "NoneType")
       eq_refl eq_refl eq_refl eq_refl) as [_ Htype].
  destruct (Htype eq_refl) as (_ & _ & Hout' & _ & Hcode').
  split; [reflexivity|]. split; [reflexivity|]. split; [exact Hout|].
  split; [reflexivity|]. split; [exact Hcode|]. split; [reflexivity|].
  split; [exact Hout' | exact Hcode'].
Defined.

(** The claim of C6 fails for a schema document that is no schema at all:
    [empty.yaml] loads as [None] and [number.json] as 30, the search for
    [$schema] raises a [TypeError], which is no [SchemaError], and the run
    is logged and reported as an unexpected error. *)
Lemma schema_that_is_no_container_reaches_unexpected_clause :
  snd (Edge.load_data "empty.yaml" None) = inr DNull /\
  snd (Edge.load_data "number.json" None) = inr (DInt 30) /\
  World.validate World.person DNull = Some (World.not_iterable "NoneType") /\
  World.validate World.person (DInt 30) = Some (World.not_iterable "int") /\
  isinstance (World.not_iterable "NoneType") SchemaError = false /\
  isinstance (World.not_iterable "int") SchemaError = false /\
  log_calls (effects (Edge.main ["data.json"; "empty.yaml"]))
    = [(ERROR, "An unexpected error occurred during validation: argument of type 'NoneType' is not iterable")] /\
  stdout (effects (Edge.main ["data.json"; "empty.yaml"]))
    = ["An unexpected error occurred: argument of type 'NoneType' is not iterable"] /\
  stdout (effects (Edge.main ["data.json"; "number.json"]))
    = ["An unexpected error occurred: argument of type 'int' is not iterable"] /\
  PyStr.startswith "An unexpected error occurred: argument of type 'int' is not iterable"
    "Schema Error: " = false.
Proof. repeat split; reflexivity. Qed.

(** [data.json] read as YAML on request, [schema.YML] by its extension. *)
Lemma type_resolution_witness :
  PyStr.contains_char "."%char "YML" = false /\
  resolve_type "data.json" (Some "yaml") = "yaml" /\
  resolve_type "schema.YML" None = "yml" /\
  format_of (resolve_type "schema.YML" None) = Some YAML /\
  snd (World.load_data "schema.YML" None) = inr World.schema.
Proof.
  pose proof
    (type_resolution World.json_loads World.yaml_safe_loads World.fs
       "data.json" "yaml" "schema" "YML" "schema.YML" None (inr World.schema_yaml)
       eq_refl eq_refl eq_refl) as (Hexplicit & Hext & _ & _ & _ & Hload).
  split; [reflexivity|]. split; [exact Hexplicit|]. split; [exact Hext|].
  split; [reflexivity | exact Hload].
Defined.

(** No file [missing.json]: nothing is opened. *)
Lemma missing_path_not_found_witness :
  path_exists World.fs "missing.json" = false /\
  World.load_data "missing.json" (Some "yaml")
    = ([], inl (mkExn FileNotFoundError "File not found: missing.json")) /\
  stdout (effects (World.main ["missing.json"; "schema.YML"]))
    = ["Error: File not found: missing.json"] /\
  opens (effects (World.main ["missing.json"; "schema.YML"])) = [] /\
  exit_code (World.main ["missing.json"; "schema.YML"]) = 1%Z.
Proof.
  pose proof
    (missing_path_not_found World.json_loads World.yaml_safe_loads World.validate World.fs
       ["missing.json"; "schema.YML"] (Runs.default_args "missing.json" "schema.YML")
       "missing.json" (Some "yaml") eq_refl eq_refl (or_introl eq_refl))
    as (Hload & Hout & Hcode & _).
  split; [reflexivity|]. split; [exact Hload|]. split; [exact Hout|].
  split; [reflexivity | exact Hcode].
Defined.

(** The truncated JSON text of [broken.json], and the brackets of
    [deep.json]. *)
Lemma malformed_content_reported_witness :
  World.json_loads World.truncated_json = inl Runs.json_syntax_error /\
  log_output (effects (World.main ["broken.json"; "schema.YML"]))
    = [(ERROR, "Error decoding JSON in broken.json: Expecting value: line 1 column 10 (char 9)")] /\
  stdout (effects (World.main ["broken.json"; "schema.YML"]))
    = ["Error: Expecting value: line 1 column 10 (char 9)"] /\
  exit_code (World.main ["broken.json"; "schema.YML"]) = 1%Z /\
  stdout (effects (Edge.main ["deep.json"; "schema.YML"]))
    = ["An unexpected error occurred: maximum recursion depth exceeded while decoding a JSON array from a unicode string"] /\
  exit_code (Edge.main ["deep.json"; "schema.YML"]) = 1%Z.
Proof.
  destruct
    (malformed_content_reported World.json_loads World.yaml_safe_loads World.validate
       World.fs ["broken.json"; "schema.YML"] (Runs.default_args "broken.json" "schema.YML")
       "broken.json" None World.truncated_json JSON Runs.json_syntax_error
       eq_refl eq_refl eq_refl eq_refl eq_refl eq_refl eq_refl)
    as (_ & Hcode & Hsyntax & _).
  destruct (Hsyntax eq_refl) as (_ & _ & Hout).
  destruct
    (malformed_content_reported World.json_loads World.yaml_safe_loads World.validate
       Edge.fs ["deep.json"; "schema.YML"] (Runs.default_args "deep.json" "schema.YML")
       "deep.json" None World.deep_json JSON Runs.too_deep
       eq_refl eq_refl eq_refl eq_refl eq_refl eq_refl eq_refl)
    as (_ & Hcode' & _ & Hdeep).
  destruct (Hdeep eq_refl) as (_ & _ & Hout').
  split; [reflexivity|]. split; [reflexivity|]. split; [exact Hout|].
  split; [exact Hcode|]. split; [exact Hout' | exact Hcode'].
Defined.

(** The claim of C5 fails for YAML: the flow sequence of [broken.yaml] is
    never closed, the parser raises a [ParserError] (a [YAMLError]), and
    the run reports it through the last clause of [main]. *)
Lemma malformed_yaml_reaches_unexpected_clause :
  fs_open World.fs "broken.yaml" = inr (inr "required: [name, age") /\
  format_of (resolve_type "broken.yaml" None) = Some YAML /\
  World.yaml_safe_loads "required: [name, age" = inl Runs.yaml_syntax_error /\
  isinstance Runs.yaml_syntax_error YAMLError = true /\
  main_except Runs.yaml_syntax_error = Some HException /\
  stdout (effects (World.main ["broken.yaml"; "schema.YML"]))
    = [("An unexpected error occurred: " ++ exn_str Runs.yaml_syntax_error)%string] /\
  PyStr.startswith (exn_str Runs.yaml_syntax_error) "while parsing a flow sequence" = true.
Proof. repeat split; reflexivity. Qed.

(** [locked.json] exists and cannot be opened. *)
Lemma io_failure_reported_as_unexpected_witness :
  fs_open World.fs "locked.json" = inl (World.permission_denied "locked.json") /\
  snd (World.load_data "locked.json" None) = inl (World.permission_denied "locked.json") /\
  stdout (effects (World.main ["locked.json"; "schema.YML"]))
    = ["An unexpected error occurred: [Errno 13] Permission denied: 'locked.json'"] /\
  exit_code (World.main ["locked.json"; "schema.YML"]) = 1%Z.
Proof.
  pose proof
    (io_failure_reported_as_unexpected World.json_loads World.yaml_safe_loads World.validate
       World.fs ["locked.json"; "schema.YML"] (Runs.default_args "locked.json" "schema.YML")
       "locked.json" None (World.permission_denied "locked.json")
       eq_refl eq_refl eq_refl eq_refl (or_introl eq_refl) eq_refl eq_refl)
    as (Hload & _ & _ & Hout & Hcode).
  split; [reflexivity|]. split; [exact Hload|]. split; [exact Hout | exact Hcode].
Defined.

(** The claim of C9 fails: the [PermissionError] is not given a category
    of its own; it is logged by the generic clause of [load_data] and
    reported by the last clause of [main]. *)
Lemma permission_error_reaches_unexpected_clause :
  path_exists World.fs "locked.json" = true /\
  fs_open World.fs "locked.json" = inl (World.permission_denied "locked.json") /\
  isinstance (World.permission_denied "locked.json") OSError = true /\
  World.load_data "locked.json" None
    = ([EvOpen "locked.json" false;
        EvLog ERROR "Error loading data from locked.json: [Errno 13] Permission denied: 'locked.json'"],
       inl (World.permission_denied "locked.json")) /\
  main_except (World.permission_denied "locked.json") = Some HException /\
  stdout (effects (World.main ["locked.json"; "schema.YML"]))
    = ["An unexpected error occurred: [Errno 13] Permission denied: 'locked.json'"].
Proof. repeat split; reflexivity. Qed.

(** [schema.types] holds the schema, but [types] is no supported type. *)
Lemma inferred_type_is_text_after_last_dot_witness :
  resolve_type "data.JSON" None = "json" /\
  resolve_type "conf/README" None = "conf/readme" /\
  resolve_type "README" None = "readme" /\
  World.load_data "schema.types" None
    = ([EvOpen "schema.types" true; EvClose "schema.types";
        EvLog ERROR "Error loading data from schema.types: Unsupported file type: types.  Must be json or yaml/yml."],
       inl (mkExn ValueError "Unsupported file type: types.  Must be json or yaml/yml.")).
Proof.
  assert (Hjson : resolve_type "schema.types" None <> "json") by discriminate.
  assert (Hyaml : resolve_type "schema.types" None <> "yaml") by discriminate.
  assert (Hyml : resolve_type "schema.types" None <> "yml") by discriminate.
  exact (inferred_type_is_text_after_last_dot World.json_loads World.yaml_safe_loads World.fs
           "data" "JSON" "conf/README" "README" "schema.types" None (inr World.schema_yaml)
           eq_refl eq_refl eq_refl eq_refl eq_refl eq_refl Hjson Hyaml Hyml).
Defined.

(** The claim of C10 fails twice.  The file name [README] has no dot, yet
    the dot in the directory name makes the resolved type [d/readme]; and
    for the existing, dot-free but unreadable [private] the load fails
    with the [PermissionError] of [open], not with the error for an
    unsupported type. *)
Lemma dot_in_directory_name_changes_the_type :
  path_exists World.fs "conf.d/README" = true /\
  PyStr.basename "conf.d/README" = "README" /\
  PyStr.contains_char "."%char (PyStr.basename "conf.d/README") = false /\
  resolve_type "conf.d/README" None = "d/readme" /\
  resolve_type "conf.d/README" None <> PyStr.basename "conf.d/README" /\
  resolve_type "conf.d/README" None <> PyStr.lower (PyStr.basename "conf.d/README") /\
  path_exists World.fs "private" = true /\
  PyStr.contains_char "."%char (PyStr.basename "private") = false /\
  snd (World.load_data "private" None) = inl (World.permission_denied "private") /\
  isinstance (World.permission_denied "private") ValueError = false.
Proof. repeat split; try reflexivity; discriminate. Qed.

(** One positional where two are required; a level that is no choice of
    [--log_level]; a type that is no choice of [--data_type], given after
    an equals sign and before the paths; a help flag between the two
    paths. *)
Lemma exit_status_of_main_witness :
  forallb plain_word ["data.json"] = true /\
  exit_code (World.main ["data.json"]) = 2%Z /\
  exit_code (World.main ["data.json"; "schema.YML"; "--log_level"; "TRACE"]) = 2%Z /\
  exit_code (World.main ["--data_type=xml"; "data.json"; "schema.YML"]) = 2%Z /\
  exit_code (World.main ["data.json"; "--help"; "schema.YML"]) = 0%Z.
Proof.
  assert (Hlen : length ["data.json"] <> 2) by discriminate.
  assert (Hlevel : Argparse.ALogLevel <> Argparse.AHelp) by discriminate.
  assert (Htype : Argparse.ADataType <> Argparse.AHelp) by discriminate.
  assert (Hxml : "xml" <> "--") by discriminate.
  split; [reflexivity|]. split; [|split; [|split]].
  - exact (proj1 (proj2 (exit_status_of_main World.json_loads World.yaml_safe_loads
                           World.validate World.fs ["data.json"])) eq_refl Hlen).
  - exact (proj1 (proj2 (proj2 (exit_status_of_main World.json_loads World.yaml_safe_loads
                           World.validate World.fs
                           ["data.json"; "schema.YML"; "--log_level"; "TRACE"])))
             ["data.json"; "schema.YML"] "--log_level" "TRACE" [] Argparse.ALogLevel
             eq_refl eq_refl Hlevel eq_refl (or_introl (conj eq_refl eq_refl))).
  - exact (proj1 (proj2 (proj2 (exit_status_of_main World.json_loads World.yaml_safe_loads
                           World.validate World.fs
                           ["--data_type=xml"; "data.json"; "schema.YML"])))
             [] "--data_type" "xml" ["data.json"; "schema.YML"] Argparse.ADataType
             eq_refl eq_refl Htype eq_refl (or_intror (conj eq_refl Hxml))).
  - exact (proj2 (proj2 (proj2 (exit_status_of_main World.json_loads World.yaml_safe_loads
                           World.validate World.fs
                           ["data.json"; "--help"; "schema.YML"])))
             ["data.json"] "--help" ["schema.YML"]
             eq_refl eq_refl eq_refl (or_intror eq_refl)).
Defined.

(** The claim of C8 fails on command-line misuse: with no argument at all,
    and with a value outside the choices of [--data_type], argparse ends
    the process with status 2. *)
Lemma misuse_exits_with_status_2 :
  exit_code (World.main []) = 2%Z /\
  exit_code (World.main ["data.json"; "schema.YML"; "--data_type"; "xml"]) = 2%Z.
Proof. split; reflexivity. Qed.

(** No file [missing.json]: the error reaches the caller, the log stays
    empty. *)
Lemma not_found_raised_without_log_witness :
  path_exists World.fs "missing.json" = false /\
  snd (World.load_data "missing.json" None)
    = inl (mkExn FileNotFoundError "File not found: missing.json") /\
  log_calls (fst (World.load_data "missing.json" None)) = [] /\
  log_output (effects (World.main ["missing.json"; "schema.YML"])) = [].
Proof.
  pose proof
    (not_found_raised_without_log World.json_loads World.yaml_safe_loads World.validate
       World.fs ["missing.json"; "schema.YML"] (Runs.default_args "missing.json" "schema.YML")
       "missing.json" None eq_refl eq_refl eq_refl) as (Hraise & Hcalls & _ & Hout).
  split; [reflexivity|]. split; [exact Hraise|]. split; [exact Hcalls | exact Hout].
Defined.

(** * Further properties of the code *)

(** ** The traces of [load_data] and of a run *)

Section TraceFacts.

Variable json_loads : string -> exn + Document.
Variable yaml_safe_loads : string -> exn + Document.
Variable validate : Document -> Document -> option exn.
Variable fs : FileSystem.

Ltac unfold_main' := unfold main, run.

Local Abbreviation load_data := (load_data json_loads yaml_safe_loads fs).
Local Abbreviation pipeline := (pipeline json_loads yaml_safe_loads validate fs).
Local Abbreviation main := (main json_loads yaml_safe_loads validate fs).

Lemma load_data_trace (p : string) (ty : option string) :
  loader_trace p (fst (load_data p ty))
    (match snd (load_data p ty) with inr _ => true | inl _ => false end).
Proof.
  destruct (path_exists fs p) eqn:Hex.
  - rewrite (load_data_existing _ _ _ _ _ Hex).
    destruct (fs_open fs p) as [e|f]; [constructor|].
    destruct (read_document _ _ _ f); constructor.
  - rewrite (load_data_missing _ _ _ _ _ Hex). constructor.
Qed.

Lemma load_data_failed_trace (p : string) (ty : option string) (t : trace) (e : exn) :
  load_data p ty = (t, inl e) -> loader_trace p t false.
Proof. intro H. pose proof (load_data_trace p ty) as Ht. now rewrite H in Ht. Qed.

(** The shape of every run whose arguments parse. *)
Lemma main_run_trace (argv : list string) (args : Argparse.Namespace) :
  Argparse.parse_args argv = Argparse.Parsed args ->
  exists lvl t,
    level_of_name (Argparse.log_level args) = Some lvl /\
    effects (main argv) = EvSetLevel lvl :: t /\
    run_trace (Argparse.data_file args) (Argparse.schema_file args) t
              (exit_code (main argv)).
Proof.
  intro Hp. destruct (ArgparseFacts.parsed_level _ _ Hp) as [lvl Hl].
  exists lvl.
  destruct (load_data (Argparse.data_file args) (Argparse.data_type args))
    as [t1 [e|data]] eqn:H1.
  { destruct (main_except_total e) as [h Hh].
    rewrite (main_failure _ _ _ _ _ _ _ _ _ _ Hp Hl
               (pipeline_data_fails _ _ _ _ _ _ _ H1) Hh).
    eexists. split; [exact Hl|]. split; [reflexivity|]. simpl.
    constructor. eapply load_data_failed_trace; eassumption. }
  destruct (load_data (Argparse.schema_file args) (Argparse.schema_type args))
    as [t2 [e|schema]] eqn:H2.
  { destruct (main_except_total e) as [h Hh].
    rewrite (main_failure _ _ _ _ _ _ _ _ _ _ Hp Hl
               (pipeline_schema_fails _ _ _ _ _ _ _ _ _ H1 H2) Hh).
    apply load_data_ok_trace in H1. destruct H1 as [_ ->].
    eexists. split; [exact Hl|]. split; [reflexivity|]. simpl.
    apply (rt_schema_failed _ _ t2 h e). eapply load_data_failed_trace; eassumption. }
  pose proof (pipeline_loaded _ _ validate _ _ _ _ _ _ H1 H2) as Hr.
  apply load_data_ok_trace in H1, H2. destruct H1 as [_ ->], H2 as [_ ->].
  destruct (validate data schema) as [e|].
  - destruct (main_except_total e) as [h Hh].
    rewrite (main_failure _ _ _ _ _ _ _ _ _ _ Hp Hl Hr Hh).
    eexists. split; [exact Hl|]. split; [reflexivity|]. simpl. constructor.
  - rewrite (main_success _ _ _ _ _ _ _ _ _ Hp Hl Hr).
    eexists. split; [exact Hl|]. split; [reflexivity|]. simpl. constructor.
Qed.

Ltac loader_cases H := inversion H; subst; clear H.

(** X1.  Whatever happens, [load_data] calls [open] at most once and only
    on the path it was given, and it leaves no file open: a file that was
    opened is closed again before the call returns or raises. *)
Theorem load_data_releases_the_file (p : string) (ty : option string) :
  handles_ok None (fst (load_data p ty)) = true /\
  length (opens (fst (load_data p ty))) <= 1 /\
  Forall (fun o => fst o = p) (opens (fst (load_data p ty))).
Proof.
  pose proof (load_data_trace p ty) as H.
  remember (fst (load_data p ty)) as t.
  remember (match snd (load_data p ty) with inr _ => true | inl _ => false end) as ok.
  destruct H; simpl; rewrite ?String.eqb_refl; repeat split; auto.
Qed.

(** X2.  [load_data] never prints; it makes at most one logging call, always
    at error level, and none at all when it returns a document. *)
Theorem load_data_logging_discipline (p : string) (ty : option string) :
  stdout (fst (load_data p ty)) = [] /\
  length (log_calls (fst (load_data p ty))) <= 1 /\
  Forall (fun r => fst r = ERROR) (log_calls (fst (load_data p ty))) /\
  match snd (load_data p ty) with
  | inr _ => log_calls (fst (load_data p ty)) = []
  | inl _ => True
  end.
Proof.
  pose proof (load_data_trace p ty) as H.
  destruct (snd (load_data p ty)); remember (fst (load_data p ty)) as t;
    inversion H; subst; simpl; repeat split; auto.
Qed.

(** X3.  A file that passes the existence test but is gone when it is
    opened (the [FileNotFoundError] comes from [open]) is handled by the
    first [except] clause of [load_data]: one error record
    [File not found: <path>], the exception of [open] re-raised as it is,
    and [main] prints [Error: ] followed by that exception's own text. *)
Theorem vanished_file_logged_as_not_found (argv : list string)
    (args : Argparse.Namespace) (p : string) (ty : option string) (e : exn) :
  Argparse.parse_args argv = Argparse.Parsed args ->
  Argparse.data_file args = p ->
  Argparse.data_type args = ty ->
  path_exists fs p = true ->
  fs_open fs p = inl e ->
  isinstance e FileNotFoundError = true ->
  load_data p ty = ([EvOpen p false; EvLog ERROR ("File not found: " ++ p)], inl e) /\
  stdout (effects (main argv)) = [("Error: " ++ exn_str e)%string] /\
  exit_code (main argv) = 1%Z.
Proof.
  intros Hp <- <- Hex Hopen He.
  assert (Hd : load_data (Argparse.data_file args) (Argparse.data_type args) =
               ([EvOpen (Argparse.data_file args) false;
                 EvLog ERROR ("File not found: " ++ Argparse.data_file args)], inl e)).
  { rewrite (load_data_existing _ _ _ _ _ Hex), Hopen.
    unfold load_failure_message. now rewrite He. }
  assert (Hh : main_except e = Some HFileNotFound).
  { unfold main_except. now rewrite He. }
  split; [exact Hd|].
  destruct (main_data_load_fails _ _ validate _ argv args _ _ _ Hp Hd Hh eq_refl)
    as (Hout & Hcode & _).
  now rewrite Hout, Hcode.
Qed.

(** X4.  A data file that can be opened but whose resolved type is none of
    [json], [yaml], [yml] ends the run with the single line
    [Error: Unsupported file type: <type>.  Must be json or yaml/yml.],
    one error record from the generic clause of [load_data], and exit
    status 1; the schema file is not opened. *)
Theorem unsupported_type_reported (argv : list string) (args : Argparse.Namespace)
    (p : string) (ty : option string) (f : file) :
  Argparse.parse_args argv = Argparse.Parsed args ->
  Argparse.data_file args = p ->
  Argparse.data_type args = ty ->
  path_exists fs p = true ->
  fs_open fs p = inr f ->
  resolve_type p ty <> "json" ->
  resolve_type p ty <> "yaml" ->
  resolve_type p ty <> "yml" ->
  stdout (effects (main argv)) =
    [("Error: Unsupported file type: " ++ resolve_type p ty
      ++ ".  Must be json or yaml/yml.")%string] /\
  log_calls (effects (main argv)) =
    [(ERROR, ("Error loading data from " ++ p ++ ": Unsupported file type: "
              ++ resolve_type p ty ++ ".  Must be json or yaml/yml.")%string)] /\
  opens (effects (main argv)) = [(p, true)] /\
  exit_code (main argv) = 1%Z.
Proof.
  intros Hp <- <- Hex Hopen H1 H2 H3.
  set (p := Argparse.data_file args) in *. set (ty := Argparse.data_type args) in *.
  assert (Hd : load_data p ty =
               ([EvOpen p true; EvClose p;
                 EvLog ERROR (load_failure_message p (unsupported (resolve_type p ty)))],
                inl (unsupported (resolve_type p ty)))).
  { rewrite (load_data_existing _ _ _ _ _ Hex), Hopen.
    unfold read_document. now rewrite (format_of_None _ H1 H2 H3). }
  destruct (ArgparseFacts.parsed_level _ _ Hp) as [lvl Hl].
  rewrite (main_failure _ _ validate _ _ _ _ _ _ HValueError Hp Hl
             (pipeline_data_fails _ _ _ _ _ _ _ Hd) eq_refl).
  repeat split.
Qed.

(** X5.  When the engine raises anything that is neither a
    [ValidationError] nor a [SchemaError] (nor a [ValueError] or a
    [FileNotFoundError], which [main] catches earlier), [validate_data]
    logs it through its last clause and re-raises it, and [main] reports
    it through its own last clause with exit status 1. *)
Theorem unexpected_validation_failure_reported (argv : list string)
    (args : Argparse.Namespace) (t1 t2 : trace) (data schema : Document) (e : exn) :
  Argparse.parse_args argv = Argparse.Parsed args ->
  load_data (Argparse.data_file args) (Argparse.data_type args) = (t1, inr data) ->
  load_data (Argparse.schema_file args) (Argparse.schema_type args) = (t2, inr schema) ->
  validate data schema = Some e ->
  isinstance e ValidationError = false ->
  isinstance e SchemaError = false ->
  isinstance e ValueError = false ->
  isinstance e FileNotFoundError = false ->
  log_calls (effects (main argv)) =
    [(ERROR, ("An unexpected error occurred during validation: " ++ exn_str e)%string)] /\
  stdout (effects (main argv)) = [("An unexpected error occurred: " ++ exn_str e)%string] /\
  exit_code (main argv) = 1%Z.
Proof.
  intros Hp H1 H2 Hv Hn1 Hn2 Hn3 Hn4.
  destruct (ArgparseFacts.parsed_level _ _ Hp) as [lvl Hl].
  pose proof (pipeline_loaded _ _ validate _ _ _ _ _ _ H1 H2) as Hr. rewrite Hv in Hr.
  assert (Hh : main_except e = Some HException).
  { unfold main_except. now rewrite Hn4, Hn3, Hn1, Hn2, isinstance_Exception. }
  rewrite (main_failure _ _ _ _ _ _ _ _ _ _ Hp Hl Hr Hh).
  apply load_data_ok_trace in H1, H2. destruct H1 as [_ ->], H2 as [_ ->].
  unfold validate_failure_message. rewrite Hn1, Hn2. repeat split.
Qed.

(** X6.  The first failure ends the run: when the data file fails to load,
    the schema file is never opened, no validation record is logged (the
    logging calls of the run are those of that one load) and the exit
    status is 1. *)
Theorem data_failure_stops_the_run (argv : list string) (args : Argparse.Namespace)
    (t : trace) (e : exn) :
  Argparse.parse_args argv = Argparse.Parsed args ->
  load_data (Argparse.data_file args) (Argparse.data_type args) = (t, inl e) ->
  Forall (fun o => fst o = Argparse.data_file args) (opens (effects (main argv))) /\
  opens (effects (main argv)) = opens t /\
  log_calls (effects (main argv)) = log_calls t /\
  exit_code (main argv) = 1%Z.
Proof.
  intros Hp Hd.
  destruct (ArgparseFacts.parsed_level _ _ Hp) as [lvl Hl].
  destruct (main_except_total e) as [h Hh].
  rewrite (main_failure _ _ _ _ _ _ _ _ _ _ Hp Hl
             (pipeline_data_fails _ _ _ _ _ _ _ Hd) Hh).
  apply load_data_failed_trace in Hd.
  inversion Hd; subst; simpl; repeat split; auto; now destruct h.
Qed.

Ltac run_cases H :=
  inversion H as [t0 h0 e0 Hlt | t0 h0 e0 Hlt | h0 e0 | ]; subst;
  try (inversion Hlt; subst).

(** X7.  Every run that [parse_args] returns a namespace of strings for
    makes exactly one [print] call and exits with status 0 or 1; the
    status is 0 exactly when what it printed is [Validation successful!]. *)
Theorem one_line_per_run (argv : list string) (args : Argparse.Namespace) :
  Argparse.parse_args argv = Argparse.Parsed args ->
  length (stdout (effects (main argv))) = 1 /\
  (exit_code (main argv) = 0%Z \/ exit_code (main argv) = 1%Z) /\
  (exit_code (main argv) = 0%Z <->
   stdout (effects (main argv)) = ["Validation successful!"]).
Proof.
  intro Hp. destruct (main_run_trace _ _ Hp) as (lvl & t & _ & -> & Hrt).
  remember (exit_code (main argv)) as c. clear Heqc.
  run_cases Hrt; simpl;
    (split; [reflexivity|]); try (split; [now left | split; reflexivity]);
    (split; [right; now destruct h0|]);
    (split; [destruct h0; discriminate | destruct h0; simpl; intros [= E]; discriminate E]).
Qed.

(** X8.  A run makes at most one logging call.  When it exits with
    status 0 that call is the info record of the successful validation;
    otherwise every call it made is at error level. *)
Theorem one_record_per_run (argv : list string) (args : Argparse.Namespace) :
  Argparse.parse_args argv = Argparse.Parsed args ->
  length (log_calls (effects (main argv))) <= 1 /\
  match exit_code (main argv) with
  | 0%Z => log_calls (effects (main argv)) = [(INFO, "Data validation successful.")]
  | _ => Forall (fun r => fst r = ERROR) (log_calls (effects (main argv)))
  end.
Proof.
  intro Hp. destruct (main_run_trace _ _ Hp) as (lvl & t & _ & -> & Hrt).
  remember (exit_code (main argv)) as c. clear Heqc.
  run_cases Hrt; simpl; (split; [auto|]); try reflexivity;
    destruct h0; simpl; auto.
Qed.

(** X9.  The level chosen with [--log_level] is set once, before anything
    is loaded, and filters every record of the run: the log stream holds
    exactly the logging calls whose level is at least that level. *)
Theorem log_level_filters_the_run (argv : list string) (args : Argparse.Namespace)
    (lvl : level) :
  Argparse.parse_args argv = Argparse.Parsed args ->
  level_of_name (Argparse.log_level args) = Some lvl ->
  log_output (effects (main argv)) =
    filter (fun r => (levelno lvl <=? levelno (fst r))%Z) (log_calls (effects (main argv))).
Proof.
  intros Hp Hl.
  destruct (main_run_trace _ _ Hp) as (lvl' & t & Hl' & -> & Hrt).
  rewrite Hl in Hl'. injection Hl' as <-.
  remember (exit_code (main argv)) as c. clear Heqc.
  unfold log_output.
  run_cases Hrt; simpl; reflexivity.
Qed.

(** X10.  With [--log_level CRITICAL] nothing ever reaches the log stream,
    whatever the run does: the program only logs at info and error
    level. *)
Theorem critical_level_silences_the_log (argv : list string)
    (args : Argparse.Namespace) :
  Argparse.parse_args argv = Argparse.Parsed args ->
  Argparse.log_level args = "CRITICAL" ->
  log_output (effects (main argv)) = [].
Proof.
  intros Hp Hc.
  destruct (main_run_trace _ _ Hp) as (lvl & t & Hl & -> & Hrt).
  rewrite Hc in Hl. injection Hl as <-.
  remember (exit_code (main argv)) as c. clear Heqc.
  unfold log_output.
  run_cases Hrt; simpl; reflexivity.
Qed.

Lemma handles_ok_app (t1 t2 : trace) :
  forall held, handles_ok held t1 = true ->
               handles_ok held (t1 ++ t2) = handles_ok None t2.
Proof.
  induction t1 as [|ev t1 IH]; intros held H; simpl in *.
  - destruct held; [discriminate | reflexivity].
  - destruct ev as [p [|]|p| | | | |]; try (now apply IH).
    + destruct held; [discriminate | now apply IH].
    + destruct held as [q|]; [|discriminate].
      apply andb_true_iff in H. destruct H as [-> H]. now apply IH.
Qed.

Lemma load_data_handles (p : string) (ty : option string) :
  handles_ok None (fst (load_data p ty)) = true.
Proof.
  pose proof (load_data_trace p ty) as H.
  remember (fst (load_data p ty)) as t.
  remember (match snd (load_data p ty) with inr _ => true | inl _ => false end) as ok.
  destruct H; simpl; rewrite ?String.eqb_refl; reflexivity.
Qed.

Lemma load_data_value_handles (v : Argparse.value) (ty : option Argparse.value) :
  handles_ok None (fst (load_data_value json_loads yaml_safe_loads fs v ty)) = true.
Proof.
  unfold load_data_value. destruct v; [apply load_data_handles | reflexivity].
Qed.

Lemma pipeline_raw_handles (raw : Argparse.RawNamespace) :
  handles_ok None (fst (pipeline_raw json_loads yaml_safe_loads validate fs raw)) = true.
Proof.
  unfold pipeline_raw.
  pose proof (load_data_value_handles (Argparse.raw_data_file raw)
                (Argparse.raw_data_type raw)) as H1.
  pose proof (load_data_value_handles (Argparse.raw_schema_file raw)
                (Argparse.raw_schema_type raw)) as H2.
  destruct (load_data_value json_loads yaml_safe_loads fs
              (Argparse.raw_data_file raw) (Argparse.raw_data_type raw))
    as [t1 [e|data]]; [exact H1|].
  destruct (load_data_value json_loads yaml_safe_loads fs
              (Argparse.raw_schema_file raw) (Argparse.raw_schema_type raw))
    as [t2 [e|schema]]; simpl in H1, H2.
  - simpl. now rewrite (handles_ok_app _ _ _ H1).
  - unfold bind at 1. unfold bind at 1. rewrite validate_data_eq.
    destruct (validate data schema); simpl;
      rewrite (handles_ok_app _ _ _ H1), (handles_ok_app _ _ _ H2); reflexivity.
Qed.

Lemma run_raw_releases (raw : Argparse.RawNamespace) :
  handles_ok None (effects (run_raw json_loads yaml_safe_loads validate fs raw)) = true.
Proof.
  unfold run_raw. destruct (set_level (Argparse.raw_log_level raw)); [reflexivity|].
  pose proof (pipeline_raw_handles raw) as H.
  destruct (pipeline_raw json_loads yaml_safe_loads validate fs raw) as [t [e|u]];
    simpl in *; [|exact H].
  destruct (main_except e); simpl; now rewrite (handles_ok_app _ _ _ H).
Qed.

(** X11.  Over a whole run at most one file is open at any moment: the
    data file is closed before the schema file is opened, and no file is
    left open when the process ends, on success and on every failure. *)
Theorem run_releases_its_files (argv : list string) :
  handles_ok None (effects (main argv)) = true.
Proof.
  destruct (Argparse.parse_args argv) as [args|raw|status text] eqn:Hp.
  - destruct (main_run_trace _ _ Hp) as (lvl & t & _ & -> & Hrt).
    remember (exit_code (main argv)) as c. clear Heqc.
    run_cases Hrt; simpl; rewrite ?String.eqb_refl; reflexivity.
  - unfold_main'. rewrite Hp. apply run_raw_releases.
  - unfold_main'. now rewrite Hp.
Qed.

End TraceFacts.

(** ** Type inference *)

Module InferFacts.
Import PyStr.

Lemma lower_ascii_idem (a : ascii) : lower_ascii (lower_ascii a) = lower_ascii a.
Proof. destruct a as [[] [] [] [] [] [] [] []]; reflexivity. Qed.

Lemma lower_ascii_dot (a : ascii) :
  Ascii.eqb (lower_ascii a) "."%char = Ascii.eqb a "."%char.
Proof. destruct a as [[] [] [] [] [] [] [] []]; reflexivity. Qed.

Lemma lower_idem (s : string) : lower (lower s) = lower s.
Proof.
  induction s as [|a s IH]; simpl; [reflexivity|].
  now rewrite lower_ascii_idem, IH.
Qed.

Lemma contains_dot_lower (s : string) :
  contains_char "."%char (lower s) = contains_char "."%char s.
Proof.
  induction s as [|a s IH]; simpl; [reflexivity|].
  now rewrite lower_ascii_dot, IH.
Qed.

(** Lower-casing commutes with splitting at dots. *)
Lemma split_lower (s : string) :
  split "."%char (lower s) = map lower (split "."%char s).
Proof.
  induction s as [|a s IH]; simpl; [reflexivity|].
  rewrite lower_ascii_dot, IH.
  destruct (Ascii.eqb a "."%char); simpl; [reflexivity|].
  destruct (split "."%char s); reflexivity.
Qed.

Lemma last_item_map_lower (l : list string) :
  last_item (map lower l) = lower (last_item l).
Proof.
  unfold last_item. induction l as [|x l IH]; simpl; [reflexivity|].
  destruct l; simpl in *; [reflexivity | exact IH].
Qed.

Lemma split_pieces_clean (c : ascii) (s : string) :
  Forall (fun piece => contains_char c piece = false) (split c s).
Proof.
  induction s as [|a s IH]; simpl; [now constructor|].
  destruct (Ascii.eqb a c) eqn:E; [now constructor|].
  destruct (split c s) as [|h t]; inversion IH; subst; constructor; simpl; auto.
  - now rewrite E.
  - now rewrite E.
Qed.

Lemma last_item_in (l : list string) : l <> [] -> In (last_item l) l.
Proof.
  unfold last_item. induction l as [|x l IH]; [congruence|]. intros _.
  destruct l as [|y l]; [now left|]. right. apply IH. discriminate.
Qed.

Lemma lower_ascii_is_ascii (a : ascii) : is_ascii (lower_ascii a) = is_ascii a.
Proof. destruct a as [[] [] [] [] [] [] [] []]; reflexivity. Qed.

Lemma lower_is_ascii (s : string) : all_chars is_ascii (lower s) = all_chars is_ascii s.
Proof.
  induction s as [|a s IH]; simpl; [reflexivity|].
  now rewrite lower_ascii_is_ascii, IH.
Qed.

Lemma last_item_all_chars (f : ascii -> bool) (c : ascii) (s : string) :
  all_chars f s = true -> all_chars f (last_item (split c s)) = true.
Proof.
  unfold last_item. induction s as [|a s IH]; simpl; [reflexivity|].
  intro H. apply andb_true_iff in H. destruct H as [Ha Hs]. specialize (IH Hs).
  destruct (Ascii.eqb a c).
  - destruct (split c s) eqn:E; [exfalso; exact (PyStrFacts.split_not_nil _ _ E)|].
    exact IH.
  - destruct (split c s) as [|h t] eqn:E; [exfalso; exact (PyStrFacts.split_not_nil _ _ E)|].
    destruct t as [|h' t]; [|exact IH].
    simpl in *. now rewrite Ha, IH.
Qed.

(** X12.  For a path of ASCII characters, the type [load_data] infers is
    ASCII text that contains no dot and is already in lower case, and it
    does not depend on the case of any letter of the path. *)
Theorem inferred_type_normalised (p : string) :
  all_chars is_ascii p = true ->
  all_chars is_ascii (infer_type p) = true /\
  contains_char "."%char (infer_type p) = false /\
  lower (infer_type p) = infer_type p /\
  infer_type (lower p) = infer_type p.
Proof.
  intro Hascii. unfold infer_type.
  split; [rewrite lower_is_ascii; now apply last_item_all_chars|].
  split; [|split].
  - rewrite contains_dot_lower.
    pose proof (split_pieces_clean "."%char p) as Hall.
    rewrite Forall_forall in Hall. apply Hall.
    apply last_item_in, PyStrFacts.split_not_nil.
  - apply lower_idem.
  - now rewrite split_lower, last_item_map_lower, lower_idem.
Qed.

End InferFacts.

(** ** The command line *)

Module CommandLineFacts.
Import Argparse.












(** X14.  Two plain words alone give the defaults (no type flags, level
    INFO); a type flag may stand before, between or after the two paths,
    may be abbreviated and may carry its value after an equals sign, and
    all these spellings give the same namespace. *)
Theorem flag_spellings_agree (d s t : string) :
  plain_word d = true ->
  plain_word s = true ->
  t = "json" \/ t = "yaml" ->
  parse_args [d; s] = Parsed (mkNamespace d s None None "INFO") /\
  parse_args [d; s; "--data_type"; t] = Parsed (mkNamespace d s (Some t) None "INFO") /\
  parse_args ["--data_type"; t; d; s] = Parsed (mkNamespace d s (Some t) None "INFO") /\
  parse_args [d; "--data"; t; s] = Parsed (mkNamespace d s (Some t) None "INFO") /\
  parse_args [d; s; ("--data_type=" ++ t)%string]
    = Parsed (mkNamespace d s (Some t) None "INFO").
Proof.
  intros Hd Hs Ht.
  pose proof (plain_not_dashes _ Hd) as Hd'. pose proof (classify_plain _ Hd) as Hd''.
  pose proof (plain_not_dashes _ Hs) as Hs'. pose proof (classify_plain _ Hs) as Hs''.
  unfold parse_args.
  destruct Ht as [-> | ->];
    repeat split;
    repeat (progress (simpl;
                      unfold consume_tail, take_positional, finish, namespace_of,
                             store, explicit_value, tail_value;
                      simpl; rewrite ?Hd', ?Hd'', ?Hs', ?Hs''));
    reflexivity.
Qed.

End CommandLineFacts.

Section CommandLineRuns.

Variable json_loads : string -> exn + Document.
Variable yaml_safe_loads : string -> exn + Document.
Variable validate : Document -> Document -> option exn.
Variable fs : FileSystem.


Local Abbreviation main := (main json_loads yaml_safe_loads validate fs).


End CommandLineRuns.

(** ** The further properties on concrete inputs *)

(** [vanished.json] exists for [os.path.exists] and not for [open]. *)
Lemma vanished_file_logged_as_not_found_witness :
  path_exists Edge.fs "vanished.json" = true /\
  fs_open Edge.fs "vanished.json" = inl (Edge.no_such_file "vanished.json") /\
  Edge.load_data "vanished.json" None
    = ([EvOpen "vanished.json" false; EvLog ERROR "File not found: vanished.json"],
       inl (Edge.no_such_file "vanished.json")) /\
  stdout (effects (Edge.main ["vanished.json"; "schema.YML"]))
    = ["Error: [Errno 2] No such file or directory: 'vanished.json'"] /\
  exit_code (Edge.main ["vanished.json"; "schema.YML"]) = 1%Z.
Proof.
  split; [reflexivity|]. split; [reflexivity|].
  exact (vanished_file_logged_as_not_found World.json_loads World.yaml_safe_loads
           World.validate Edge.fs ["vanished.json"; "schema.YML"]
           (Runs.default_args "vanished.json" "schema.YML") "vanished.json" None
           (Edge.no_such_file "vanished.json")
           eq_refl eq_refl eq_refl eq_refl eq_refl eq_refl).
Defined.

(** [notes.txt] can be read, but [txt] is no supported type. *)
Lemma unsupported_type_reported_witness :
  stdout (effects (Edge.main ["notes.txt"; "schema.YML"]))
    = ["Error: Unsupported file type: txt.  Must be json or yaml/yml."] /\
  log_calls (effects (Edge.main ["notes.txt"; "schema.YML"]))
    = [(ERROR, "Error loading data from notes.txt: Unsupported file type: txt.  Must be json or yaml/yml.")] /\
  opens (effects (Edge.main ["notes.txt"; "schema.YML"])) = [("notes.txt", true)] /\
  exit_code (Edge.main ["notes.txt"; "schema.YML"]) = 1%Z.
Proof.
  assert (Hjson : resolve_type "notes.txt" None <> "json") by discriminate.
  assert (Hyaml : resolve_type "notes.txt" None <> "yaml") by discriminate.
  assert (Hyml : resolve_type "notes.txt" None <> "yml") by discriminate.
  exact (unsupported_type_reported World.json_loads World.yaml_safe_loads
           World.validate Edge.fs ["notes.txt"; "schema.YML"]
           (Runs.default_args "notes.txt" "schema.YML") "notes.txt" None
           (inr "remember the milk")
           eq_refl eq_refl eq_refl eq_refl eq_refl Hjson Hyaml Hyml).
Defined.

(** The engine gives up with a [RecursionError]. *)
Lemma unexpected_validation_failure_reported_witness :
  log_calls (effects (Edge.main_deep ["data.json"; "schema.YML"]))
    = [(ERROR, "An unexpected error occurred during validation: maximum recursion depth exceeded")] /\
  stdout (effects (Edge.main_deep ["data.json"; "schema.YML"]))
    = ["An unexpected error occurred: maximum recursion depth exceeded"] /\
  exit_code (Edge.main_deep ["data.json"; "schema.YML"]) = 1%Z.
Proof.
  exact (unexpected_validation_failure_reported World.json_loads World.yaml_safe_loads
           Edge.validate World.fs ["data.json"; "schema.YML"]
           (Runs.default_args "data.json" "schema.YML")
           [EvOpen "data.json" true; EvClose "data.json"]
           [EvOpen "schema.YML" true; EvClose "schema.YML"]
           World.person World.schema Edge.too_deep
           eq_refl eq_refl eq_refl eq_refl eq_refl eq_refl eq_refl eq_refl).
Defined.

(** The data file is malformed and the schema file does not exist: only
    the data file is touched and reported. *)
Lemma data_failure_stops_the_run_witness :
  path_exists World.fs "nowhere.yaml" = false /\
  opens (effects (World.main ["broken.json"; "nowhere.yaml"])) = [("broken.json", true)] /\
  log_calls (effects (World.main ["broken.json"; "nowhere.yaml"]))
    = [(ERROR, "Error decoding JSON in broken.json: Expecting value: line 1 column 10 (char 9)")] /\
  exit_code (World.main ["broken.json"; "nowhere.yaml"]) = 1%Z.
Proof.
  pose proof
    (data_failure_stops_the_run World.json_loads World.yaml_safe_loads World.validate
       World.fs ["broken.json"; "nowhere.yaml"]
       (Runs.default_args "broken.json" "nowhere.yaml")
       [EvOpen "broken.json" true; EvClose "broken.json";
        EvLog ERROR "Error decoding JSON in broken.json: Expecting value: line 1 column 10 (char 9)"]
       Runs.json_syntax_error eq_refl eq_refl) as (_ & Hopens & Hlog & Hcode).
  split; [reflexivity|]. split; [exact Hopens|]. split; [exact Hlog | exact Hcode].
Defined.

(** A failing run, whose one call prints a text of several lines, and a
    successful run. *)
Lemma one_line_per_run_witness :
  length (stdout (effects (World.main ["bad_age.json"; "schema.YML"]))) = 1 /\
  exit_code (World.main ["bad_age.json"; "schema.YML"]) = 1%Z /\
  stdout (effects (World.main ["data.json"; "schema.YML"])) = ["Validation successful!"].
Proof.
  pose proof
    (one_line_per_run World.json_loads World.yaml_safe_loads World.validate World.fs
       ["bad_age.json"; "schema.YML"] (Runs.default_args "bad_age.json" "schema.YML")
       eq_refl) as (Hone & _ & _).
  pose proof
    (one_line_per_run World.json_loads World.yaml_safe_loads World.validate World.fs
       ["data.json"; "schema.YML"] (Runs.default_args "data.json" "schema.YML")
       eq_refl) as (_ & _ & Hiff).
  split; [exact Hone|]. split; [reflexivity|]. apply Hiff. reflexivity.
Defined.

(** A successful run, and one stopped by a missing file. *)
Lemma one_record_per_run_witness :
  log_calls (effects (World.main ["data.json"; "schema.YML"]))
    = [(INFO, "Data validation successful.")] /\
  length (log_calls (effects (World.main ["missing.json"; "schema.YML"]))) <= 1.
Proof.
  split.
  - exact (proj2 (one_record_per_run World.json_loads World.yaml_safe_loads World.validate
                    World.fs ["data.json"; "schema.YML"]
                    (Runs.default_args "data.json" "schema.YML") eq_refl)).
  - exact (proj1 (one_record_per_run World.json_loads World.yaml_safe_loads World.validate
                    World.fs ["missing.json"; "schema.YML"]
                    (Runs.default_args "missing.json" "schema.YML") eq_refl)).
Defined.

(** At level WARNING the record of a successful validation is filtered
    out. *)
Lemma log_level_filters_the_run_witness :
  log_calls (effects (World.main ["data.json"; "schema.YML"; "--log_level"; "WARNING"]))
    = [(INFO, "Data validation successful.")] /\
  log_output (effects (World.main ["data.json"; "schema.YML"; "--log_level"; "WARNING"]))
    = [].
Proof.
  split; [reflexivity|].
  exact (log_level_filters_the_run World.json_loads World.yaml_safe_loads World.validate
           World.fs ["data.json"; "schema.YML"; "--log_level"; "WARNING"]
           (Argparse.mkNamespace "data.json" "schema.YML" None None "WARNING") WARNING
           eq_refl eq_refl).
Defined.

(** A failing run at level CRITICAL. *)
Lemma critical_level_silences_the_log_witness :
  log_calls (effects (World.main ["bad_age.json"; "schema.YML"; "--log_level=CRITICAL"]))
    = [(ERROR, ("Data validation failed: " ++ exn_str Runs.type_error)%string)] /\
  log_output (effects (World.main ["bad_age.json"; "schema.YML"; "--log_level=CRITICAL"]))
    = [].
Proof.
  split; [reflexivity|].
  exact (critical_level_silences_the_log World.json_loads World.yaml_safe_loads
           World.validate World.fs ["bad_age.json"; "schema.YML"; "--log_level=CRITICAL"]
           (Argparse.mkNamespace "bad_age.json" "schema.YML" None None "CRITICAL")
           eq_refl eq_refl).
Defined.


(** The abbreviated flag and the equals-sign form. *)
Lemma flag_spellings_agree_witness :
  Argparse.parse_args ["data.txt"; "--data"; "json"; "schema.yaml"]
    = Argparse.Parsed (Argparse.mkNamespace "data.txt" "schema.yaml" (Some "json") None "INFO") /\
  Argparse.parse_args ["data.txt"; "schema.yaml"; "--data_type=json"]
    = Argparse.Parsed (Argparse.mkNamespace "data.txt" "schema.yaml" (Some "json") None "INFO").
Proof.
  pose proof
    (CommandLineFacts.flag_spellings_agree "data.txt" "schema.yaml" "json"
       eq_refl eq_refl (or_introl eq_refl)) as (_ & _ & _ & Habbrev & Hequals).
  split; [exact Habbrev | exact Hequals].
Defined.


(** ** The schema load and the validation step *)

Section LaterSteps.

Variable json_loads : string -> exn + Document.
Variable yaml_safe_loads : string -> exn + Document.
Variable validate : Document -> Document -> option exn.
Variable fs : FileSystem.

Local Abbreviation load_data := (load_data json_loads yaml_safe_loads fs).
Local Abbreviation validate_data := (validate_data validate).
Local Abbreviation main := (main json_loads yaml_safe_loads validate fs).

(** X16.  When the data file loads and the schema file does not, the run
    is: the level is set, the data file is opened and closed, then come
    the events of the failing schema load, then one [print] call.  So the
    data file is closed before the schema file is touched, the only
    logging calls are those of the failing load (no validation is
    attempted), and the exit status is 1. *)
Theorem schema_failure_stops_the_run (argv : list string) (args : Argparse.Namespace)
    (t1 t2 : trace) (data : Document) (e : exn) :
  Argparse.parse_args argv = Argparse.Parsed args ->
  load_data (Argparse.data_file args) (Argparse.data_type args) = (t1, inr data) ->
  load_data (Argparse.schema_file args) (Argparse.schema_type args) = (t2, inl e) ->
  (exists lvl printed,
     effects (main argv) =
       EvSetLevel lvl :: EvOpen (Argparse.data_file args) true
         :: EvClose (Argparse.data_file args) :: t2 ++ [EvPrint printed]) /\
  opens (effects (main argv)) = (Argparse.data_file args, true) :: opens t2 /\
  Forall (fun o => fst o = Argparse.schema_file args) (opens t2) /\
  log_calls (effects (main argv)) = log_calls t2 /\
  length (stdout (effects (main argv))) = 1 /\
  exit_code (main argv) = 1%Z.
Proof.
  intros Hp H1 H2.
  destruct (ArgparseFacts.parsed_level _ _ Hp) as [lvl Hl].
  destruct (main_except_total e) as [h Hh].
  rewrite (main_failure _ _ _ _ _ _ _ _ _ _ Hp Hl
             (pipeline_schema_fails _ _ _ _ _ _ _ _ _ H1 H2) Hh).
  apply load_data_ok_trace in H1. destruct H1 as [_ ->].
  apply load_data_failed_trace in H2.
  split; [exists lvl, (handler_message h e); reflexivity|].
  inversion H2; subst; simpl; repeat split; auto; now destruct h.
Qed.

(** X17.  [validate_data] returns normally exactly when the engine does
    and otherwise re-raises the engine's own exception; either way it
    makes exactly one logging call (info on success, error on failure)
    and prints nothing. *)
Theorem validate_data_logs_once (data schema : Document) :
  snd (validate_data data schema) =
    match validate data schema with Some e => inl e | None => inr tt end /\
  length (log_calls (fst (validate_data data schema))) = 1 /\
  Forall (fun r => fst r = match validate data schema with
                          | Some _ => ERROR
                          | None => INFO
                          end)
         (log_calls (fst (validate_data data schema))) /\
  stdout (fst (validate_data data schema)) = [].
Proof.
  rewrite validate_data_eq.
  destruct (validate data schema); simpl; repeat split; auto.
Qed.

End LaterSteps.

(** The data loads; the schema file cannot be opened. *)
Lemma schema_failure_stops_the_run_witness :
  effects (World.main ["data.json"; "locked.json"])
    = [EvSetLevel INFO; EvOpen "data.json" true; EvClose "data.json";
       EvOpen "locked.json" false;
       EvLog ERROR "Error loading data from locked.json: [Errno 13] Permission denied: 'locked.json'";
       EvPrint "An unexpected error occurred: [Errno 13] Permission denied: 'locked.json'"] /\
  opens (effects (World.main ["data.json"; "locked.json"]))
    = [("data.json", true); ("locked.json", false)] /\
  log_calls (effects (World.main ["data.json"; "locked.json"]))
    = [(ERROR, "Error loading data from locked.json: [Errno 13] Permission denied: 'locked.json'")] /\
  exit_code (World.main ["data.json"; "locked.json"]) = 1%Z.
Proof.
  pose proof
    (schema_failure_stops_the_run World.json_loads World.yaml_safe_loads World.validate
       World.fs ["data.json"; "locked.json"] (Runs.default_args "data.json" "locked.json")
       [EvOpen "data.json" true; EvClose "data.json"]
       [EvOpen "locked.json" false;
        EvLog ERROR "Error loading data from locked.json: [Errno 13] Permission denied: 'locked.json'"]
       World.person (World.permission_denied "locked.json") eq_refl eq_refl eq_refl)
    as (_ & Hopens & _ & Hlog & _ & Hcode).
  split; [reflexivity|]. split; [exact Hopens|]. split; [exact Hlog | exact Hcode].
Defined.

(** A path with upper-case letters in every part. *)
Lemma inferred_type_normalised_witness :
  PyStr.all_chars PyStr.is_ascii "Conf.D/Data.JSON" = true /\
  infer_type "Conf.D/Data.JSON" = "json" /\
  infer_type (PyStr.lower "Conf.D/Data.JSON") = infer_type "Conf.D/Data.JSON".
Proof.
  destruct (InferFacts.inferred_type_normalised "Conf.D/Data.JSON" eq_refl)
    as (_ & _ & _ & Hcase).
  split; [reflexivity|]. split; [reflexivity | exact Hcase].
Defined.
